(** * ALTmotion ver. 0.1: the per-frame motion analyser

    A shallow embedding of [mmotion.analyse] and of the time-slice loop
    of [ALTmotion - ver. 0.1.py], with the NumPy operations the callback
    uses written out on machine integers.

    The motion-vector array delivered by picamera has the record dtype
    [x : int8, y : int8, sad : uint16].  NumPy keeps the element type in
    [np.absolute] (so the result for an [int8] array is again [int8]) and
    widens to the default integer (C [long], resp. [unsigned long]) in
    [np.sum].  The width of that default integer depends on the platform
    (32 bits on a 32-bit Raspbian, 64 bits on a 64-bit Linux); it is the
    parameter [long_bits] below. *)

From Stdlib Require Import ZArith List Bool Lia String Ascii Sorted.
From Stdlib Require Import DecimalString.
From Stdlib Require DecimalZ DecimalPos.
Import ListNotations.
Local Open Scope Z_scope.

(** ** Machine integers and the NumPy operations used by the callback *)

Module NumPy.

(** Reduction of an integer to [w] bits, unsigned and two's complement. *)
Definition wrap_unsigned (w v : Z) : Z := v mod 2 ^ w.

Definition wrap_signed (w v : Z) : Z :=
  (v + 2 ^ (w - 1)) mod 2 ^ w - 2 ^ (w - 1).

Definition int8_min : Z := -128.
Definition int8_max : Z := 127.
Definition uint16_max : Z := 65535.

Definition is_int8 (v : Z) : bool := (int8_min <=? v) && (v <=? int8_max).
Definition is_uint16 (v : Z) : bool := (0 <=? v) && (v <=? uint16_max).

(** [np.absolute] on an [int8] element: the result is an [int8]. *)
Definition absolute_int8 (v : Z) : Z := wrap_signed 8 (Z.abs v).

(** [np.negative] on an [int8] element. *)
Definition negative_int8 (v : Z) : Z := wrap_signed 8 (- v).

(** A two-dimensional array is a list of rows; reductions without an
    [axis] argument work on the row-major flattening. *)
Definition ravel {A : Type} (m : list (list A)) : list A := List.concat m.

Definition size {A : Type} (m : list (list A)) : Z :=
  Z.of_nat (List.length (ravel m)).

Definition map2d {A B : Type} (f : A -> B) (m : list (list A))
  : list (list B) := map (map f) m.

(** [np.sum] of a [uint16] array: accumulated in [unsigned long]. *)
Definition sum_uint (w : Z) (m : list (list Z)) : Z :=
  fold_left (fun acc v => wrap_unsigned w (acc + v)) (ravel m) 0.

(** [np.sum] of an [int8] array: accumulated in [long]. *)
Definition sum_int (w : Z) (m : list (list Z)) : Z :=
  fold_left (fun acc v => wrap_signed w (acc + v)) (ravel m) 0.

(** Addition of two [long] scalars. *)
Definition add_int (w a b : Z) : Z := wrap_signed w (a + b).

(** Addition of two [unsigned long] scalars. *)
Definition add_uint (w a b : Z) : Z := wrap_unsigned w (a + b).

(** [np.argmax]: index of the first maximal element of the flattened
    array; an empty array raises [ValueError] ([None] here).  The scan
    keeps the running best [(index, value)] and replaces it only on a
    strictly larger value. *)
Fixpoint argmax_from (l : list Z) (i : Z) (best : Z * Z) : Z :=
  match l with
  | [] => fst best
  | v :: l' =>
      argmax_from l' (i + 1) (if snd best <? v then (i, v) else best)
  end.

Definition argmax_list (l : list Z) : option Z :=
  match l with
  | [] => None
  | v :: l' => Some (argmax_from l' 1 (0, v))
  end.

Definition argmax (m : list (list Z)) : option Z := argmax_list (ravel m).

End NumPy.

(** ** Data model *)

(** One element of the motion-vector array. *)
Record macroblock : Type := mk_macroblock {
  x : Z;    (* int8 *)
  y : Z;    (* int8 *)
  sad : Z   (* uint16 *)
}.

Definition grid : Type := list (list macroblock).

Definition valid_macroblock (m : macroblock) : bool :=
  NumPy.is_int8 (x m) && NumPy.is_int8 (y m) && NumPy.is_uint16 (sad m).

(** Every field of every element is in the range of its dtype. *)
Definition valid_grid (a : grid) : bool := forallb (forallb valid_macroblock) a.

(** The array holds at least one macroblock. *)
Definition well_shaped (a : grid) : bool := 0 <? NumPy.size a.

(** The module-level configuration constants read by the callback. *)
Record config : Type := mk_config {
  motionDetectionThreshold : Z;
  columnsPerRow : Z
}.

Definition default_config : config :=
  {| motionDetectionThreshold := 1000; columnsPerRow := 81 |}.

(** Python's [str] on an integer. *)
Definition str_int (z : Z) : string := NilZero.string_of_int (Z.to_int z).

Definition newline : string := String (ascii_of_nat 10) EmptyString.

Section Analyser.

(** Width of NumPy's default integer on the platform. *)
Variable long_bits : Z.

(** Values returned by [time.time()] and their rendering by [str]. *)
Variable Timestamp : Type.
Variable str_time : Timestamp -> string.

(** The module-level series and counter owned by the current time
    slice. *)
Record State : Type := mk_State {
  sSADs : list Z;
  motionEstimates : list Z;
  motionDetectionTimes : list Timestamp;
  motionDetectionFrameNumbers : list Z;
  currentFrame : Z
}.

(** Lines 287-294: the series are rebound to fresh lists and the
    counter to 1, whatever the previous slice left behind. *)
Definition start_time_slice (previous : option State) : State :=
  {| sSADs := [];
     motionEstimates := [];
     motionDetectionTimes := [];
     motionDetectionFrameNumbers := [];
     currentFrame := 1 |}.

(** The locals computed on the detection path (lines 179-189). *)
Record detection : Type := mk_detection {
  indexMaxXabs : Z;
  indexMaxYabs : Z;
  rowForMaxXabs : Z;
  columnForMaxXabs : Z;
  rowForMaxYabs : Z;
  columnForMaxYabs : Z
}.

(** How a call of [analyse] ends: it returns (with the detection
    locals when the threshold was crossed), or an exception leaves it;
    in both cases the appends done so far stay in the series. *)
Inductive outcome : Type :=
| Returned (s : State) (d : option detection)
| Raised (s : State).

Definition state_of (o : outcome) : State :=
  match o with
  | Returned s _ => s
  | Raised s => s
  end.

Definition Xabs_of (a : grid) : list (list Z) :=
  NumPy.map2d NumPy.absolute_int8 (NumPy.map2d x a).

Definition Yabs_of (a : grid) : list (list Z) :=
  NumPy.map2d NumPy.absolute_int8 (NumPy.map2d y a).

(** Value of the local [sSAD] (line 120). *)
Definition sSAD_of (a : grid) : Z :=
  NumPy.sum_uint long_bits (NumPy.map2d sad a).

(** Value of the local [motionEstimate] (lines 145-155). *)
Definition motionEstimate_of (a : grid) : Z :=
  let XabsSum := NumPy.sum_int long_bits (Xabs_of a) in
  let YabsSum := NumPy.sum_int long_bits (Yabs_of a) in
  NumPy.add_int long_bits XabsSum YabsSum.

(** [int(index / columnsPerRow)] and the column that goes with it.
    The true division is done in double precision and [int] truncates
    toward zero; for the indices of an array (far below 2^53) that is
    the truncated integer quotient.  With a zero divisor the quotient is
    infinite or not a number, and [int] raises. *)
Definition row_column (index c : Z) : option (Z * Z) :=
  if c =? 0 then None
  else
    let row := Z.quot index c in
    Some (row, index - row * c).

(** [mmotion.analyse] (lines 111-211).  [now] is the value
    [time.time()] returns on line 170; the two other readings only
    feed commented-out prints. *)
Definition analyse (cfg : config) (now : Timestamp) (a : grid) (s : State)
  : outcome :=
  let sSAD := NumPy.sum_uint long_bits (NumPy.map2d sad a) in
  let s1 :=
    {| sSADs := sSADs s ++ [sSAD];
       motionEstimates := motionEstimates s;
       motionDetectionTimes := motionDetectionTimes s;
       motionDetectionFrameNumbers := motionDetectionFrameNumbers s;
       currentFrame := currentFrame s |} in
  let Xabs := NumPy.map2d NumPy.absolute_int8 (NumPy.map2d x a) in
  let Yabs := NumPy.map2d NumPy.absolute_int8 (NumPy.map2d y a) in
  let XabsSum := NumPy.sum_int long_bits Xabs in
  let YabsSum := NumPy.sum_int long_bits Yabs in
  let motionEstimate := NumPy.add_int long_bits XabsSum YabsSum in
  let s2 :=
    {| sSADs := sSADs s1;
       motionEstimates := motionEstimates s1 ++ [motionEstimate];
       motionDetectionTimes := motionDetectionTimes s1;
       motionDetectionFrameNumbers := motionDetectionFrameNumbers s1;
       currentFrame := currentFrame s1 |} in
  if motionDetectionThreshold cfg <? motionEstimate then
    let s3 :=
      {| sSADs := sSADs s2;
         motionEstimates := motionEstimates s2;
         motionDetectionTimes := motionDetectionTimes s2 ++ [now];
         motionDetectionFrameNumbers :=
           motionDetectionFrameNumbers s2 ++ [currentFrame s2];
         currentFrame := currentFrame s2 |} in
    match NumPy.argmax Xabs with
    | None => Raised s3
    | Some iX =>
        match NumPy.argmax Yabs with
        | None => Raised s3
        | Some iY =>
            match row_column iX (columnsPerRow cfg) with
            | None => Raised s3
            | Some (rX, cX) =>
                match row_column iY (columnsPerRow cfg) with
                | None => Raised s3
                | Some (rY, cY) =>
                    Returned
                      {| sSADs := sSADs s3;
                         motionEstimates := motionEstimates s3;
                         motionDetectionTimes := motionDetectionTimes s3;
                         motionDetectionFrameNumbers :=
                           motionDetectionFrameNumbers s3;
                         currentFrame := currentFrame s3 + 1 |}
                      (Some {| indexMaxXabs := iX;
                               indexMaxYabs := iY;
                               rowForMaxXabs := rX;
                               columnForMaxXabs := cX;
                               rowForMaxYabs := rY;
                               columnForMaxYabs := cY |})
                end
            end
        end
    end
  else
    Returned
      {| sSADs := sSADs s2;
         motionEstimates := motionEstimates s2;
         motionDetectionTimes := motionDetectionTimes s2;
         motionDetectionFrameNumbers := motionDetectionFrameNumbers s2;
         currentFrame := currentFrame s2 + 1 |}
      None.

(** One frame as the camera delivers it: the clock reading of the
    call and the motion-vector array. *)
Definition frame : Type := (Timestamp * grid)%type.

Definition detects (cfg : config) (f : frame) : bool :=
  motionDetectionThreshold cfg <? motionEstimate_of (snd f).

(** How the recording of a slice ends: every delivered frame was
    analysed, or an exception in the callback stopped it. *)
Inductive recording : Type :=
| Completed (s : State)
| Aborted (s : State).

(** Lines 303-305: the callback runs once per delivered frame, in
    order, on the slice's series. *)
Fixpoint record_frames (cfg : config) (fs : list frame) (s : State)
  : recording :=
  match fs with
  | [] => Completed s
  | (now, a) :: fs' =>
      match analyse cfg now a s with
      | Returned s' _ => record_frames cfg fs' s'
      | Raised s' => Aborted s'
      end
  end.

(** One pass of a flush loop [for i in range(n): file.write(key(i) +
    ": " + value(i) + "\n")] on a file opened for writing; a list
    index out of range ([None]) raises. *)
Definition write_line (key value : nat -> option string)
  (file : option string) (i : nat) : option string :=
  match file, key i, value i with
  | Some text, Some k, Some v =>
      Some (text ++ k ++ ": " ++ v ++ newline)%string
  | _, _, _ => None
  end.

Definition write_lines (n : nat) (key value : nat -> option string)
  : option string :=
  fold_left (write_line key value) (seq 0 n) (Some EmptyString).

(** The three text files of a slice. *)
Record logs : Type := mk_logs {
  sSADsfile : string;
  motionEstimateFile : string;
  motionDetectionTimesFile : string
}.

(** Lines 310-318. *)
Definition flush (s : State) : option logs :=
  match
    write_lines (List.length (sSADs s))
      (fun i => Some (str_int (Z.of_nat i + 1)))
      (fun i => option_map str_int (nth_error (sSADs s) i)),
    write_lines (List.length (motionEstimates s))
      (fun i => Some (str_int (Z.of_nat i + 1)))
      (fun i => option_map str_int (nth_error (motionEstimates s) i)),
    write_lines (List.length (motionDetectionTimes s))
      (fun i =>
         option_map str_int (nth_error (motionDetectionFrameNumbers s) i))
      (fun i => option_map str_time (nth_error (motionDetectionTimes s) i))
  with
  | Some f1, Some f2, Some f3 =>
      Some {| sSADsfile := f1;
              motionEstimateFile := f2;
              motionDetectionTimesFile := f3 |}
  | _, _, _ => None
  end.

(** One iteration of the loop of line 278: fresh series, recording,
    flush. *)
Definition time_slice (cfg : config) (previous : option State)
  (fs : list frame) : option logs :=
  match record_frames cfg fs (start_time_slice previous) with
  | Completed s => flush s
  | Aborted _ => None
  end.

End Analyser.

Arguments sSADs {Timestamp} _.
Arguments motionEstimates {Timestamp} _.
Arguments motionDetectionTimes {Timestamp} _.
Arguments motionDetectionFrameNumbers {Timestamp} _.
Arguments currentFrame {Timestamp} _.
Arguments mk_State {Timestamp} _ _ _ _ _.
Arguments start_time_slice {Timestamp} _.
Arguments Returned {Timestamp} _ _.
Arguments Raised {Timestamp} _.
Arguments state_of {Timestamp} _.
Arguments Completed {Timestamp} _.
Arguments Aborted {Timestamp} _.
Arguments analyse long_bits {Timestamp} _ _ _ _.
Arguments detects long_bits {Timestamp} _ _.
Arguments record_frames long_bits {Timestamp} _ _ _.
Arguments flush {Timestamp} _ _.
Arguments time_slice long_bits {Timestamp} _ _ _ _.

(** ** What the logs are expected to hold *)

(** The text of a log whose lines are [key: value]. *)
Definition log_text (lines : list (Z * string)) : string :=
  fold_right
    (fun l text => (str_int (fst l) ++ ": " ++ snd l ++ newline ++ text)%string)
    EmptyString lines.

(** The elements of a list with consecutive indices starting at [k]. *)
Fixpoint number_from {A : Type} (k : Z) (l : list A) : list (Z * A) :=
  match l with
  | [] => []
  | v :: l' => (k, v) :: number_from (k + 1) l'
  end.

(** The frames of a slice with their 1-based frame index. *)
Definition numbered {A : Type} (l : list A) : list (Z * A) := number_from 1 l.

(** Exact sum of a list of integers. *)
Definition Zsum (l : list Z) : Z := fold_right Z.add 0 l.

(** The grid with every [x] (resp. [y]) negated in [int8]. *)
Definition negate_x (a : grid) : grid :=
  NumPy.map2d
    (fun m => {| x := NumPy.negative_int8 (x m); y := y m; sad := sad m |}) a.

Definition negate_y (a : grid) : grid :=
  NumPy.map2d
    (fun m => {| x := x m; y := NumPy.negative_int8 (y m); sad := sad m |}) a.

(** No motion-vector component of the grid is the least [int8]. *)
Definition no_int8_min (a : grid) : bool :=
  forallb
    (forallb (fun m => negb (x m =? NumPy.int8_min)
                       && negb (y m =? NumPy.int8_min))) a.

(** A one-row grid whose first macroblock moves by -128 along x and the
    ten next ones by 127. *)
Definition grid_with_int8_min : grid :=
  [ {| x := -128; y := 0; sad := 0 |}
      :: repeat {| x := 127; y := 0; sad := 0 |} 10 ].

(** [v] at index [r] is the first maximum of [l]: nothing in [l] is
    larger, and everything before [r] is strictly smaller. *)
Definition first_max (l : list Z) (r v : Z) : Prop :=
  0 <= r /\
  nth_error l (Z.to_nat r) = Some v /\
  (forall j u, nth_error l j = Some u -> u <= v) /\
  (forall j u, (j < Z.to_nat r)%nat -> nth_error l j = Some u -> u < v).

(** The frames of a recording on which the threshold test fires, with
    the frame index each one had, [k] being the index of the first
    frame. *)
Definition detections (long_bits : Z) {Timestamp : Type} (cfg : config)
  (k : Z) (fs : list (frame Timestamp)) : list (Z * frame Timestamp) :=
  filter (fun kf => detects long_bits cfg (snd kf)) (number_from k fs).

(** The two frames of the worked example: a still 2x2 scene, then one
    with motion along x. *)
Definition still_grid : grid :=
  [ [ {| x := 0; y := 0; sad := 10 |}; {| x := 0; y := 0; sad := 20 |} ];
    [ {| x := 0; y := 0; sad := 30 |}; {| x := 0; y := 0; sad := 40 |} ] ].

Definition moving_grid : grid :=
  [ [ {| x := 5; y := 0; sad := 0 |}; {| x := -50; y := 0; sad := 0 |} ];
    [ {| x := 0; y := 0; sad := 0 |}; {| x := 0; y := 0; sad := 0 |} ] ].

Definition example_config : config :=
  {| motionDetectionThreshold := 40; columnsPerRow := 2 |}.

Definition example_frames : list (frame Z) :=
  [ (1000, still_grid); (1001, moving_grid) ].

(** A 1x1 grid whose macroblock moves by -128 along x. *)
Definition int8_min_grid : grid := [ [ {| x := -128; y := 0; sad := 0 |} ] ].

(** The state a recording ends in, whether it completed or not. *)
Definition recorded {Timestamp : Type} (r : recording Timestamp)
  : State Timestamp :=
  match r with
  | Completed s => s
  | Aborted s => s
  end.

(** Number of motion-vector components of the grid that hold the least
    [int8]. *)
Definition count_int8_min (a : grid) : Z :=
  Z.of_nat
    (List.length
       (filter (fun v => v =? NumPy.int8_min)
          (map x (NumPy.ravel a) ++ map y (NumPy.ravel a)))).

(** Every field of every macroblock is zero, as in the motion data of an
    I-frame. *)
Definition zero_grid (a : grid) : bool :=
  forallb (forallb (fun m => (x m =? 0) && (y m =? 0) && (sad m =? 0))) a.

(** Every row of the array has [c] elements. *)
Definition rectangular (c : Z) (a : grid) : bool :=
  forallb (fun row => Z.of_nat (List.length row) =? c) a.

(** An array without any macroblock, and a configuration with a negative
    threshold. *)
Definition empty_grid : grid := [].

Definition negative_config : config :=
  {| motionDetectionThreshold := -1; columnsPerRow := 2 |}.

(** A recording in which the camera delivers an empty array between the
    two frames of the worked example. *)
Definition frames_with_empty : list (frame Z) :=
  [ (1000, still_grid); (1001, empty_grid); (1002, moving_grid) ].

(** A 2x2 grid with one component at the least [int8]. *)
Definition mixed_grid : grid :=
  [ [ {| x := -128; y := 3; sad := 7 |}; {| x := 100; y := -4; sad := 9 |} ];
    [ {| x := 127; y := 0; sad := 1 |}; {| x := -127; y := 5; sad := 2 |} ] ].

(** Does the character occur in the string? *)
Fixpoint has_char (c : ascii) (text : string) : bool :=
  match text with
  | EmptyString => false
  | String c' text' => Ascii.eqb c' c || has_char c text'
  end.

Definition newline_char : ascii := ascii_of_nat 10.

(** ** Properties of the NumPy operations *)

Module NumPyFacts.
Import NumPy.

Lemma wrap_unsigned_small (w v : Z) :
  0 <= v < 2 ^ w -> wrap_unsigned w v = v.
Proof. intros H. unfold wrap_unsigned. now apply Z.mod_small. Qed.

Lemma half_range_positive (w v : Z) :
  - 2 ^ (w - 1) <= v < 2 ^ (w - 1) -> 0 <= w - 1.
Proof.
  intros H. destruct (Z.neg_nonneg_cases (w - 1)) as [Hneg | Hpos]; [| exact Hpos].
  rewrite (Z.pow_neg_r 2 (w - 1)) in H by exact Hneg. lia.
Qed.

Lemma two_halves (w : Z) : 0 <= w - 1 -> 2 ^ w = 2 * 2 ^ (w - 1).
Proof.
  intros H. replace w with (Z.succ (w - 1)) at 1 by lia.
  now rewrite Z.pow_succ_r.
Qed.

Lemma wrap_signed_small (w v : Z) :
  - 2 ^ (w - 1) <= v < 2 ^ (w - 1) -> wrap_signed w v = v.
Proof.
  intros H. pose proof (half_range_positive _ _ H) as Hw.
  unfold wrap_signed. rewrite Z.mod_small; [lia |].
  rewrite (two_halves w Hw). lia.
Qed.

Lemma wrap_unsigned_add_l (w a b : Z) :
  wrap_unsigned w (wrap_unsigned w a + b) = wrap_unsigned w (a + b).
Proof. unfold wrap_unsigned. apply Zplus_mod_idemp_l. Qed.

Lemma wrap_signed_add_l (w a b : Z) :
  wrap_signed w (wrap_signed w a + b) = wrap_signed w (a + b).
Proof.
  unfold wrap_signed. f_equal.
  replace ((a + 2 ^ (w - 1)) mod 2 ^ w - 2 ^ (w - 1) + b + 2 ^ (w - 1))
    with ((a + 2 ^ (w - 1)) mod 2 ^ w + b) by lia.
  rewrite Zplus_mod_idemp_l. f_equal. lia.
Qed.

Lemma fold_wrap_unsigned (w : Z) (l : list Z) (acc : Z) :
  fold_left (fun acc v => wrap_unsigned w (acc + v)) l (wrap_unsigned w acc)
  = wrap_unsigned w (acc + Zsum l).
Proof.
  revert acc. induction l as [| v l IH]; intros acc; simpl.
  - now rewrite Z.add_0_r.
  - rewrite wrap_unsigned_add_l, IH. f_equal. lia.
Qed.

Lemma fold_wrap_signed (w : Z) (l : list Z) (acc : Z) :
  fold_left (fun acc v => wrap_signed w (acc + v)) l (wrap_signed w acc)
  = wrap_signed w (acc + Zsum l).
Proof.
  revert acc. induction l as [| v l IH]; intros acc; simpl.
  - now rewrite Z.add_0_r.
  - rewrite wrap_signed_add_l, IH. f_equal. lia.
Qed.

(** The wrapped accumulation is the wrapped exact sum. *)
Lemma sum_uint_wrap (w : Z) (m : list (list Z)) :
  sum_uint w m = wrap_unsigned w (Zsum (ravel m)).
Proof.
  unfold sum_uint.
  destruct (ravel m) as [| v l]; [reflexivity |].
  simpl fold_left. rewrite fold_wrap_unsigned. reflexivity.
Qed.

Lemma sum_int_wrap (w : Z) (m : list (list Z)) :
  sum_int w m = wrap_signed w (Zsum (ravel m)).
Proof.
  unfold sum_int.
  destruct (ravel m) as [| v l]; [| simpl fold_left; now rewrite fold_wrap_signed].
  simpl. unfold wrap_signed. rewrite Z.add_0_l.
  destruct (Z.neg_nonneg_cases (w - 1)) as [Hneg | Hpos].
  - rewrite (Z.pow_neg_r 2 (w - 1)) by exact Hneg. now rewrite Zmod_0_l.
  - rewrite Z.mod_small; [lia |]. rewrite (two_halves w Hpos).
    assert (0 < 2 ^ (w - 1)) by (apply Z.pow_pos_nonneg; lia). lia.
Qed.

Lemma ravel_map2d {A B : Type} (f : A -> B) (m : list (list A)) :
  ravel (map2d f m) = map f (ravel m).
Proof. unfold ravel, map2d. symmetry. apply concat_map. Qed.

Lemma ravel_app {A : Type} (m1 m2 : list (list A)) :
  ravel (m1 ++ m2) = ravel m1 ++ ravel m2.
Proof. apply concat_app. Qed.

Lemma size_map2d {A B : Type} (f : A -> B) (m : list (list A)) :
  size (map2d f m) = size m.
Proof. unfold size. now rewrite ravel_map2d, length_map. Qed.

Lemma size_app {A : Type} (m1 m2 : list (list A)) :
  size (m1 ++ m2) = size m1 + size m2.
Proof. unfold size. rewrite ravel_app, length_app. lia. Qed.

Lemma size_nonneg {A : Type} (m : list (list A)) : 0 <= size m.
Proof. unfold size. lia. Qed.

Lemma Zsum_app (l1 l2 : list Z) : Zsum (l1 ++ l2) = Zsum l1 + Zsum l2.
Proof. induction l1 as [| v l1 IH]; simpl; lia. Qed.

(** [np.absolute] on [int8]: the mathematical absolute value, except
    at the least value, which it leaves in place. *)
Lemma absolute_int8_spec (v : Z) :
  is_int8 v = true ->
  absolute_int8 v = if v =? int8_min then int8_min else Z.abs v.
Proof.
  unfold is_int8, int8_min, int8_max. intros H.
  apply andb_true_iff in H. destruct H as [Hlo Hhi].
  apply Z.leb_le in Hlo. apply Z.leb_le in Hhi.
  unfold absolute_int8, wrap_signed.
  change (2 ^ (8 - 1)) with 128. change (2 ^ 8) with 256.
  destruct (Z.eqb_spec v (-128)) as [-> | Hne]; [reflexivity |].
  rewrite Z.mod_small; lia.
Qed.

Lemma negative_int8_spec (v : Z) :
  is_int8 v = true ->
  negative_int8 v = if v =? int8_min then int8_min else - v.
Proof.
  unfold is_int8, int8_min, int8_max. intros H.
  apply andb_true_iff in H. destruct H as [Hlo Hhi].
  apply Z.leb_le in Hlo. apply Z.leb_le in Hhi.
  unfold negative_int8, wrap_signed.
  change (2 ^ (8 - 1)) with 128. change (2 ^ 8) with 256.
  destruct (Z.eqb_spec v (-128)) as [-> | Hne]; [reflexivity |].
  rewrite Z.mod_small; lia.
Qed.

Lemma negative_int8_is_int8 (v : Z) :
  is_int8 v = true -> is_int8 (negative_int8 v) = true.
Proof.
  intros H. rewrite (negative_int8_spec v H).
  unfold is_int8, int8_min, int8_max in *.
  apply andb_true_iff in H. destruct H as [Hlo Hhi].
  apply Z.leb_le in Hlo. apply Z.leb_le in Hhi.
  destruct (Z.eqb_spec v (-128)); apply andb_true_iff; split;
    apply Z.leb_le; lia.
Qed.

(** Negation in [int8] does not change the [int8] absolute value. *)
Lemma absolute_negative_int8 (v : Z) :
  is_int8 v = true -> absolute_int8 (negative_int8 v) = absolute_int8 v.
Proof.
  intros H.
  rewrite (absolute_int8_spec _ (negative_int8_is_int8 v H)).
  rewrite (absolute_int8_spec v H), (negative_int8_spec v H).
  unfold is_int8, int8_min, int8_max in *.
  apply andb_true_iff in H. destruct H as [Hlo Hhi].
  apply Z.leb_le in Hlo. apply Z.leb_le in Hhi.
  destruct (Z.eqb_spec v (-128)) as [-> | Hne]; [reflexivity |].
  destruct (Z.eqb_spec (- v) (-128)); lia.
Qed.

(** The scan of [np.argmax] keeps a first maximum of what it has
    seen. *)
Lemma argmax_from_first_max (l p : list Z) (i bi bv : Z) :
  i = Z.of_nat (List.length p) ->
  first_max p bi bv ->
  exists v, first_max (p ++ l) (argmax_from l i (bi, bv)) v.
Proof.
  revert p i bi bv.
  induction l as [| v l IH]; intros p i bi bv Hi Hbest.
  - simpl. rewrite app_nil_r. now exists bv.
  - simpl argmax_from.
    replace (p ++ v :: l) with ((p ++ [v]) ++ l)
      by (rewrite <- app_assoc; reflexivity).
    destruct Hbest as (Hpos & Hnth & Hall & Hbefore).
    assert (Hlt : (Z.to_nat bi < List.length p)%nat)
      by (apply nth_error_Some; congruence).
    destruct (Z.ltb_spec bv v) as [Hbv | Hbv].
    + apply (IH (p ++ [v]) (i + 1) i v).
      * rewrite length_app. simpl. lia.
      * subst i. rewrite <- (Nat2Z.id (List.length p)) at 1.
        unfold first_max. rewrite !Nat2Z.id.
        split; [lia |]. split.
        { rewrite nth_error_app2 by lia. now rewrite Nat.sub_diag. }
        split.
        { intros j u Hj. destruct (Nat.lt_ge_cases j (List.length p)) as [Hjp | Hjp].
          - rewrite nth_error_app1 in Hj by exact Hjp.
            specialize (Hall j u Hj). lia.
          - rewrite nth_error_app2 in Hj by exact Hjp.
            destruct (j - List.length p)%nat as [| n]; simpl in Hj.
            + injection Hj as <-. lia.
            + destruct n; discriminate. }
        { intros j u Hjp Hj.
          rewrite nth_error_app1 in Hj by exact Hjp.
          specialize (Hall j u Hj). lia. }
    + apply (IH (p ++ [v]) (i + 1) bi bv).
      * rewrite length_app. simpl. lia.
      * unfold first_max. split; [exact Hpos |]. split.
        { rewrite nth_error_app1 by exact Hlt. exact Hnth. }
        split.
        { intros j u Hj. destruct (Nat.lt_ge_cases j (List.length p)) as [Hjp | Hjp].
          - rewrite nth_error_app1 in Hj by exact Hjp. now apply (Hall j).
          - rewrite nth_error_app2 in Hj by exact Hjp.
            destruct (j - List.length p)%nat as [| n]; simpl in Hj.
            + injection Hj as <-. lia.
            + destruct n; discriminate. }
        { intros j u Hjb Hj.
          rewrite nth_error_app1 in Hj by lia. now apply (Hbefore j). }
Qed.

(** [np.argmax] returns the index of the first maximum. *)
Lemma argmax_list_first_max (l : list Z) (r : Z) :
  argmax_list l = Some r -> exists v, first_max l r v.
Proof.
  destruct l as [| v l]; [discriminate |].
  simpl. intros H. injection H as <-.
  apply (argmax_from_first_max l [v] 1 0 v); [reflexivity |].
  unfold first_max. simpl. split; [lia |]. split; [reflexivity |]. split.
  - intros [| j] u Hj; simpl in Hj.
    + injection Hj as <-. lia.
    + destruct j; discriminate.
  - intros j u Hj. lia.
Qed.

Lemma argmax_defined (m : list (list Z)) :
  0 < size m -> exists i, argmax m = Some i.
Proof.
  unfold size, argmax. destruct (ravel m) as [| v l]; simpl.
  - lia.
  - intros _. eexists. reflexivity.
Qed.

End NumPyFacts.

(** ** One call of the callback *)

Section AnalyseFacts.

Variable long_bits : Z.
Variable Timestamp : Type.
Variable cfg : config.

Implicit Types (now : Timestamp) (a : grid) (s : State Timestamp).

(** What one call leaves in the four series, whether it returns or
    raises. *)
Lemma analyse_series now a s :
  let s' := state_of (analyse long_bits cfg now a s) in
  let detected :=
    motionDetectionThreshold cfg <? motionEstimate_of long_bits a in
  sSADs s' = sSADs s ++ [sSAD_of long_bits a] /\
  motionEstimates s' = motionEstimates s ++ [motionEstimate_of long_bits a] /\
  motionDetectionTimes s' =
    motionDetectionTimes s ++ (if detected then [now] else []) /\
  motionDetectionFrameNumbers s' =
    motionDetectionFrameNumbers s
      ++ (if detected then [currentFrame s] else []).
Proof.
  unfold analyse, sSAD_of, motionEstimate_of, Xabs_of, Yabs_of. cbv zeta.
  destruct (motionDetectionThreshold cfg <? _).
  - destruct (NumPy.argmax _) as [iX |]; [| simpl; auto].
    destruct (NumPy.argmax _) as [iY |]; [| simpl; auto].
    destruct (row_column iX _) as [[rX cX] |]; [| simpl; auto].
    destruct (row_column iY _) as [[rY cY] |]; simpl; auto.
  - simpl. rewrite !app_nil_r. auto.
Qed.

Lemma row_column_defined (index c : Z) :
  c <> 0 -> exists row col, row_column index c = Some (row, col).
Proof.
  intros Hc. unfold row_column.
  destruct (Z.eqb_spec c 0) as [H0 | _]; [contradiction |].
  eexists. eexists. reflexivity.
Qed.

(** On an array with at least one macroblock, and with a non-zero
    [columnsPerRow], the call returns and the counter has advanced by
    one. *)
Lemma analyse_returns now a s :
  well_shaped a = true ->
  columnsPerRow cfg <> 0 ->
  exists s' d,
    analyse long_bits cfg now a s = Returned s' d /\
    currentFrame s' = currentFrame s + 1.
Proof.
  unfold well_shaped. intros Hsize Hc. apply Z.ltb_lt in Hsize.
  unfold analyse. cbv zeta.
  destruct (motionDetectionThreshold cfg <? _).
  - destruct (NumPyFacts.argmax_defined
                (NumPy.map2d NumPy.absolute_int8 (NumPy.map2d x a)))
      as [iX ->]; [now rewrite !NumPyFacts.size_map2d |].
    destruct (NumPyFacts.argmax_defined
                (NumPy.map2d NumPy.absolute_int8 (NumPy.map2d y a)))
      as [iY ->]; [now rewrite !NumPyFacts.size_map2d |].
    destruct (row_column_defined iX _ Hc) as (rX & cX & ->).
    destruct (row_column_defined iY _ Hc) as (rY & cY & ->).
    eexists. eexists. split; [reflexivity | reflexivity].
  - eexists. eexists. split; [reflexivity | reflexivity].
Qed.

End AnalyseFacts.

(** ** Exactness of the two measures on arrays that fit the accumulator *)

Section Exactness.

Variable long_bits : Z.

Lemma valid_ravel (a : grid) :
  valid_grid a = true -> forallb valid_macroblock (NumPy.ravel a) = true.
Proof.
  unfold valid_grid, NumPy.ravel.
  induction a as [| row a IH]; simpl; [reflexivity |].
  intros H. apply andb_true_iff in H. destruct H as [Hrow Ha].
  rewrite forallb_app, Hrow. simpl. now apply IH.
Qed.

Lemma valid_grid_app (a b : grid) :
  valid_grid (a ++ b) = valid_grid a && valid_grid b.
Proof. apply forallb_app. Qed.

Lemma sad_sum_bounds (l : list macroblock) :
  forallb valid_macroblock l = true ->
  0 <= Zsum (map sad l) <= Z.of_nat (List.length l) * NumPy.uint16_max.
Proof.
  induction l as [| m l IH]; simpl forallb; intros H.
  - simpl. lia.
  - apply andb_true_iff in H. destruct H as [Hm Hl].
    specialize (IH Hl).
    unfold valid_macroblock, NumPy.is_uint16 in Hm.
    apply andb_true_iff in Hm. destruct Hm as [_ Hsad].
    apply andb_true_iff in Hsad. destruct Hsad as [Hlo Hhi].
    apply Z.leb_le in Hlo. apply Z.leb_le in Hhi.
    change (Zsum (map sad (m :: l))) with (sad m + Zsum (map sad l)).
    change (List.length (m :: l)) with (S (List.length l)).
    rewrite Nat2Z.inj_succ. unfold NumPy.uint16_max in *. lia.
Qed.

(** [sSAD] is the exact sum of the [sad] fields when the array is
    small enough for the [unsigned long] accumulator. *)
Lemma sSAD_of_exact (a : grid) :
  valid_grid a = true ->
  NumPy.size a * NumPy.uint16_max < 2 ^ long_bits ->
  sSAD_of long_bits a = Zsum (map sad (NumPy.ravel a)).
Proof.
  intros Hvalid Hfit. unfold sSAD_of.
  rewrite NumPyFacts.sum_uint_wrap, NumPyFacts.ravel_map2d.
  apply NumPyFacts.wrap_unsigned_small.
  pose proof (sad_sum_bounds _ (valid_ravel a Hvalid)) as Hb.
  unfold NumPy.size in Hfit. lia.
Qed.

Lemma abs_sum_bounds (f : macroblock -> Z) (l : list macroblock) :
  (forall m, In m l -> NumPy.is_int8 (f m) = true /\ f m <> NumPy.int8_min) ->
  Zsum (map NumPy.absolute_int8 (map f l)) = Zsum (map Z.abs (map f l)) /\
  0 <= Zsum (map Z.abs (map f l)) <= Z.of_nat (List.length l) * 127.
Proof.
  induction l as [| m l IH]; intros H.
  - simpl. lia.
  - destruct (IH (fun m' Hm' => H m' (or_intror Hm'))) as [IHeq IHb].
    destruct (H m (or_introl eq_refl)) as [Hrange Hmin].
    pose proof (NumPyFacts.absolute_int8_spec (f m) Hrange) as Habs.
    destruct (Z.eqb_spec (f m) NumPy.int8_min) as [E | _]; [contradiction |].
    unfold NumPy.is_int8, NumPy.int8_min, NumPy.int8_max in Hrange, Hmin.
    apply andb_true_iff in Hrange. destruct Hrange as [Hlo Hhi].
    apply Z.leb_le in Hlo. apply Z.leb_le in Hhi.
    change (Zsum (map NumPy.absolute_int8 (map f (m :: l))))
      with (NumPy.absolute_int8 (f m)
            + Zsum (map NumPy.absolute_int8 (map f l))).
    change (Zsum (map Z.abs (map f (m :: l))))
      with (Z.abs (f m) + Zsum (map Z.abs (map f l))).
    change (List.length (m :: l)) with (S (List.length l)).
    rewrite Nat2Z.inj_succ, Habs, IHeq. lia.
Qed.

(** [motionEstimate] is the exact sum of the absolute values when no
    component is the least [int8] and the array is small enough for
    the [long] accumulator. *)
Lemma motionEstimate_of_exact (a : grid) :
  valid_grid a = true ->
  no_int8_min a = true ->
  NumPy.size a * 256 < 2 ^ (long_bits - 1) ->
  motionEstimate_of long_bits a
  = Zsum (map Z.abs (map x (NumPy.ravel a)))
    + Zsum (map Z.abs (map y (NumPy.ravel a))).
Proof.
  intros Hvalid Hmin Hfit.
  assert (Hcells : forall m, In m (NumPy.ravel a) ->
            (NumPy.is_int8 (x m) = true /\ x m <> NumPy.int8_min) /\
            (NumPy.is_int8 (y m) = true /\ y m <> NumPy.int8_min)).
  { intros m Hin. unfold NumPy.ravel in Hin. apply in_concat in Hin.
    destruct Hin as (row & Hrow & Hm).
    unfold valid_grid in Hvalid. rewrite forallb_forall in Hvalid.
    specialize (Hvalid row Hrow). rewrite forallb_forall in Hvalid.
    specialize (Hvalid m Hm).
    unfold no_int8_min in Hmin. rewrite forallb_forall in Hmin.
    specialize (Hmin row Hrow). rewrite forallb_forall in Hmin.
    specialize (Hmin m Hm).
    unfold valid_macroblock in Hvalid.
    apply andb_true_iff in Hvalid. destruct Hvalid as [Hxy _].
    apply andb_true_iff in Hxy. destruct Hxy as [Hx Hy].
    apply andb_true_iff in Hmin. destruct Hmin as [Hmx Hmy].
    apply negb_true_iff in Hmx. apply negb_true_iff in Hmy.
    apply Z.eqb_neq in Hmx. apply Z.eqb_neq in Hmy. tauto. }
  destruct (abs_sum_bounds x (NumPy.ravel a)
              (fun m Hm => proj1 (Hcells m Hm))) as [Hxeq Hxb].
  destruct (abs_sum_bounds y (NumPy.ravel a)
              (fun m Hm => proj2 (Hcells m Hm))) as [Hyeq Hyb].
  unfold motionEstimate_of, Xabs_of, Yabs_of, NumPy.add_int. cbv zeta.
  rewrite !NumPyFacts.sum_int_wrap, !NumPyFacts.ravel_map2d.
  rewrite Hxeq, Hyeq. unfold NumPy.size in Hfit.
  rewrite (NumPyFacts.wrap_signed_small long_bits
             (Zsum (map Z.abs (map x (NumPy.ravel a))))) by lia.
  rewrite (NumPyFacts.wrap_signed_small long_bits
             (Zsum (map Z.abs (map y (NumPy.ravel a))))) by lia.
  apply NumPyFacts.wrap_signed_small. lia.
Qed.

End Exactness.

(** ** A recording: the callback over the frames of a slice *)

Section RecordingFacts.

Variable long_bits : Z.
Variable Timestamp : Type.
Variable cfg : config.
Hypothesis columns_nonzero : columnsPerRow cfg <> 0.

Implicit Types (fs : list (frame Timestamp)) (s : State Timestamp).

(** On well-shaped arrays the recording completes, and the series
    hold one entry per frame, resp. per frame that fired. *)
Lemma record_frames_series fs s :
  forallb (fun f => well_shaped (snd f)) fs = true ->
  exists s',
    record_frames long_bits cfg fs s = Completed s' /\
    sSADs s' = sSADs s ++ map (fun f => sSAD_of long_bits (snd f)) fs /\
    motionEstimates s' =
      motionEstimates s
        ++ map (fun f => motionEstimate_of long_bits (snd f)) fs /\
    motionDetectionTimes s' =
      motionDetectionTimes s
        ++ map (fun kf => fst (snd kf))
             (detections long_bits cfg (currentFrame s) fs) /\
    motionDetectionFrameNumbers s' =
      motionDetectionFrameNumbers s
        ++ map fst (detections long_bits cfg (currentFrame s) fs) /\
    currentFrame s' = currentFrame s + Z.of_nat (List.length fs).
Proof.
  revert s. induction fs as [| [now a] fs IH]; intros s Hshape.
  - exists s. simpl. rewrite !app_nil_r, Z.add_0_r. repeat split; reflexivity.
  - simpl in Hshape. apply andb_true_iff in Hshape.
    destruct Hshape as [Ha Hfs].
    destruct (analyse_returns long_bits Timestamp cfg now a s Ha columns_nonzero)
      as (s1 & d & Hcall & Hframe).
    pose proof (analyse_series long_bits Timestamp cfg now a s) as Hseries.
    cbv zeta in Hseries. rewrite Hcall in Hseries. simpl state_of in Hseries.
    destruct Hseries as (H1 & H2 & H3 & H4).
    destruct (IH s1 Hfs) as (s' & Hrun & R1 & R2 & R3 & R4 & R5).
    exists s'. simpl record_frames. rewrite Hcall.
    split; [exact Hrun |].
    change (motionDetectionThreshold cfg <? motionEstimate_of long_bits a)
      with (detects long_bits cfg (now, a)) in H3, H4.
    rewrite R1, R2, R3, R4, R5, H1, H2, H3, H4, Hframe.
    unfold detections. cbn [number_from filter snd].
    change (List.length ((now, a) :: fs)) with (S (List.length fs)).
    rewrite Nat2Z.inj_succ.
    destruct (detects long_bits cfg (now, a));
      cbn [map fst snd]; rewrite <- ?app_assoc; cbn [app];
      rewrite ?app_nil_r; repeat split; try reflexivity; lia.
Qed.

Lemma detections_length k fs :
  List.length (detections long_bits cfg k fs)
  = List.length (filter (detects long_bits cfg) fs).
Proof.
  unfold detections. revert k.
  induction fs as [| f fs IH]; intros k; simpl; [reflexivity |].
  destruct (detects long_bits cfg f); simpl; now rewrite IH.
Qed.

(** The recorded frame indices increase strictly and stay within the
    indices of the frames analysed. *)
Lemma detections_increasing k fs :
  StronglySorted Z.lt (map fst (detections long_bits cfg k fs)) /\
  Forall (fun n => k <= n < k + Z.of_nat (List.length fs))
    (map fst (detections long_bits cfg k fs)).
Proof.
  unfold detections. revert k.
  induction fs as [| f fs IH]; intros k.
  - simpl. split; constructor.
  - destruct (IH (k + 1)) as [Hsorted Hrange].
    assert (Hshift :
      Forall (fun n => k < n /\ k <= n < k + Z.of_nat (List.length (f :: fs)))
        (map fst (filter (fun kf => detects long_bits cfg (snd kf))
                    (number_from (k + 1) fs)))).
    { eapply Forall_impl; [| exact Hrange].
      intros n Hn. change (List.length (f :: fs)) with (S (List.length fs)).
      rewrite Nat2Z.inj_succ. simpl in Hn. lia. }
    simpl number_from. simpl filter. simpl snd.
    destruct (detects long_bits cfg f); simpl map.
    + split.
      * constructor; [exact Hsorted |].
        eapply Forall_impl; [| exact Hshift]. intros n Hn. cbv beta in Hn. lia.
      * constructor.
        { change (List.length (f :: fs)) with (S (List.length fs)).
          rewrite Nat2Z.inj_succ. lia. }
        { eapply Forall_impl; [| exact Hshift]. intros n Hn. cbv beta in Hn. lia. }
    + split; [exact Hsorted |].
      eapply Forall_impl; [| exact Hshift]. intros n Hn. cbv beta in Hn. lia.
Qed.

End RecordingFacts.

(** ** The flush at the end of a slice *)

Section FlushFacts.

Variable Timestamp : Type.
Variable str_time : Timestamp -> string.

Lemma append_assoc (s1 s2 s3 : string) :
  ((s1 ++ s2) ++ s3 = s1 ++ (s2 ++ s3))%string.
Proof. induction s1 as [| c s1 IH]; simpl; [reflexivity | now rewrite IH]. Qed.

Lemma append_empty_r (s1 : string) : (s1 ++ EmptyString)%string = s1.
Proof. induction s1 as [| c s1 IH]; simpl; [reflexivity | now rewrite IH]. Qed.

Lemma length_number_from {A : Type} (k : Z) (l : list A) :
  List.length (number_from k l) = List.length l.
Proof. revert k. induction l as [| v l IH]; intros k; simpl; auto. Qed.

Lemma nth_error_number_from {A : Type} (l : list A) (k : Z) (i : nat) :
  nth_error (number_from k l) i
  = option_map (fun v => (Z.of_nat i + k, v)) (nth_error l i).
Proof.
  revert k i.
  induction l as [| v l IH]; intros k [| i];
    cbn [number_from nth_error option_map]; try reflexivity.
  rewrite IH. destruct (nth_error l i); cbn [option_map]; [| reflexivity].
  do 2 f_equal. lia.
Qed.

Lemma number_from_map {A B : Type} (g : A -> B) (l : list A) (k : Z) :
  number_from k (map g l)
  = map (fun kv => (fst kv, g (snd kv))) (number_from k l).
Proof. revert k. induction l as [| v l IH]; intros k; simpl; [| rewrite IH]; reflexivity. Qed.

(** A loop that finds its key and value at every index writes the
    lines of the list it walks, in order. *)
Lemma write_loop (lines : list (Z * string))
  (key value : nat -> option string) (start : nat) (text : string) :
  (forall i kv, nth_error lines i = Some kv ->
     key (start + i)%nat = Some (str_int (fst kv)) /\
     value (start + i)%nat = Some (snd kv)) ->
  fold_left (write_line key value) (seq start (List.length lines)) (Some text)
  = Some (text ++ log_text lines)%string.
Proof.
  revert start text.
  induction lines as [| kv lines IH]; intros start text Hfind.
  - simpl. now rewrite append_empty_r.
  - destruct (Hfind 0%nat kv eq_refl) as [Hk Hv].
    rewrite Nat.add_0_r in Hk, Hv.
    assert (Hstep : write_line key value (Some text) start
                    = Some (text ++ str_int (fst kv) ++ ": "
                              ++ snd kv ++ newline)%string)
      by (unfold write_line; now rewrite Hk, Hv).
    cbn [List.length seq fold_left]. rewrite Hstep.
    rewrite IH.
    + simpl log_text. rewrite !append_assoc. reflexivity.
    + intros i kv' Hi. specialize (Hfind (S i) kv' Hi).
      now rewrite Nat.add_succ_r in Hfind.
Qed.

Lemma write_lines_log (lines : list (Z * string)) (n : nat)
  (key value : nat -> option string) :
  n = List.length lines ->
  (forall i kv, nth_error lines i = Some kv ->
     key i = Some (str_int (fst kv)) /\ value i = Some (snd kv)) ->
  write_lines n key value = Some (log_text lines).
Proof.
  intros -> Hfind. unfold write_lines.
  now rewrite (write_loop lines key value 0 EmptyString Hfind).
Qed.

(** Flushing a series of integers numbers its entries from 1. *)
Lemma write_lines_series (l : list Z) :
  write_lines (List.length l)
    (fun i => Some (str_int (Z.of_nat i + 1)))
    (fun i => option_map str_int (nth_error l i))
  = Some (log_text (map (fun kv => (fst kv, str_int (snd kv))) (numbered l))).
Proof.
  apply write_lines_log.
  - unfold numbered. now rewrite length_map, length_number_from.
  - intros i kv. unfold numbered.
    rewrite nth_error_map, nth_error_number_from.
    destruct (nth_error l i) as [v |]; cbn [option_map]; [| discriminate].
    intros H. injection H as <-. cbn [fst snd]. split; reflexivity.
Qed.

(** Flushing the detection series pairs each frame index with its
    timestamp. *)
Lemma write_lines_detections {F : Type} (D : list (Z * F))
  (time_of : F -> Timestamp) :
  write_lines (List.length (map (fun kf => time_of (snd kf)) D))
    (fun i => option_map str_int (nth_error (map fst D) i))
    (fun i => option_map str_time
                (nth_error (map (fun kf => time_of (snd kf)) D) i))
  = Some (log_text (map (fun kf => (fst kf, str_time (time_of (snd kf)))) D)).
Proof.
  apply write_lines_log.
  - now rewrite !length_map.
  - intros i kv. rewrite !nth_error_map.
    destruct (nth_error D i) as [kf |]; cbn [option_map]; [| discriminate].
    intros H. injection H as <-. cbn [fst snd]. split; reflexivity.
Qed.

End FlushFacts.

(** ** The measures of one frame *)

Section Measures.

Variable long_bits : Z.
Variable Timestamp : Type.
Variable cfg : config.

Implicit Types (now : Timestamp) (a : grid) (s : State Timestamp).

Lemma map2d_map2d {A B C : Type} (f : A -> B) (g : B -> C)
  (m : list (list A)) :
  NumPy.map2d g (NumPy.map2d f m) = NumPy.map2d (fun v => g (f v)) m.
Proof.
  unfold NumPy.map2d. rewrite map_map.
  apply map_ext. intros row. apply map_map.
Qed.

Lemma map2d_ext_valid {B : Type} (f g : macroblock -> B) a :
  (forall m, valid_macroblock m = true -> f m = g m) ->
  valid_grid a = true ->
  NumPy.map2d f a = NumPy.map2d g a.
Proof.
  intros Hfg Hvalid. unfold NumPy.map2d.
  unfold valid_grid in Hvalid. rewrite forallb_forall in Hvalid.
  apply map_ext_in. intros row Hrow.
  specialize (Hvalid row Hrow). rewrite forallb_forall in Hvalid.
  apply map_ext_in. intros m Hm. apply Hfg. now apply Hvalid.
Qed.

Lemma valid_macroblock_x (m : macroblock) :
  valid_macroblock m = true -> NumPy.is_int8 (x m) = true.
Proof.
  unfold valid_macroblock. intros H.
  apply andb_true_iff in H. destruct H as [H _].
  apply andb_true_iff in H. tauto.
Qed.

Lemma valid_macroblock_y (m : macroblock) :
  valid_macroblock m = true -> NumPy.is_int8 (y m) = true.
Proof.
  unfold valid_macroblock. intros H.
  apply andb_true_iff in H. destruct H as [H _].
  apply andb_true_iff in H. tauto.
Qed.

Lemma motionEstimate_of_negate_x a :
  valid_grid a = true ->
  motionEstimate_of long_bits (negate_x a) = motionEstimate_of long_bits a.
Proof.
  intros Hvalid. unfold motionEstimate_of, Xabs_of, Yabs_of, negate_x.
  cbv zeta. rewrite !map2d_map2d. cbn [x y].
  f_equal. f_equal.
  apply map2d_ext_valid; [| exact Hvalid].
  intros m Hm. apply NumPyFacts.absolute_negative_int8.
  now apply valid_macroblock_x.
Qed.

Lemma motionEstimate_of_negate_y a :
  valid_grid a = true ->
  motionEstimate_of long_bits (negate_y a) = motionEstimate_of long_bits a.
Proof.
  intros Hvalid. unfold motionEstimate_of, Xabs_of, Yabs_of, negate_y.
  cbv zeta. rewrite !map2d_map2d. cbn [x y].
  f_equal. f_equal.
  apply map2d_ext_valid; [| exact Hvalid].
  intros m Hm. apply NumPyFacts.absolute_negative_int8.
  now apply valid_macroblock_y.
Qed.

(** C2: [analyse] appends the timestamp and the current frame index to
    the two detection series exactly when the [motionEstimate] it
    computed (and appended) is strictly above
    [motionDetectionThreshold]; at or below the threshold, equality
    included, it leaves both series as they were. *)
Theorem detection_iff_above_threshold now a s :
  let s' := state_of (analyse long_bits cfg now a s) in
  let motionEstimate := motionEstimate_of long_bits a in
  motionEstimates s' = motionEstimates s ++ [motionEstimate] /\
  ((motionDetectionTimes s' = motionDetectionTimes s ++ [now] /\
    motionDetectionFrameNumbers s' =
      motionDetectionFrameNumbers s ++ [currentFrame s])
   <-> motionDetectionThreshold cfg < motionEstimate) /\
  ((motionDetectionTimes s' = motionDetectionTimes s /\
    motionDetectionFrameNumbers s' = motionDetectionFrameNumbers s)
   <-> motionEstimate <= motionDetectionThreshold cfg).
Proof.
  cbv zeta.
  destruct (analyse_series long_bits Timestamp cfg now a s)
    as (_ & Hme & Htimes & Hnumbers).
  split; [exact Hme |].
  rewrite Htimes, Hnumbers.
  destruct (Z.ltb_spec (motionDetectionThreshold cfg)
              (motionEstimate_of long_bits a)) as [Hgt | Hle].
  - split; split; try (intros; split; reflexivity); try (intros; lia).
    intros [Habs _]. apply (f_equal (@List.length Timestamp)) in Habs.
    rewrite length_app in Habs. simpl in Habs. lia.
  - rewrite !app_nil_r.
    split; split; try (intros; split; reflexivity); try (intros; lia).
    intros [Habs _]. apply (f_equal (@List.length Timestamp)) in Habs.
    rewrite length_app in Habs. simpl in Habs. lia.
Qed.

(** C3: on an array whose [sad] fields are [uint16] values and whose
    total fits the [unsigned long] accumulator of [np.sum], the value
    [analyse] appends to [sSADs] is the exact sum of [sad] over every
    macroblock. *)
Theorem sSAD_is_exact_sum now a s :
  valid_grid a = true ->
  NumPy.size a * NumPy.uint16_max < 2 ^ long_bits ->
  sSADs (state_of (analyse long_bits cfg now a s))
  = sSADs s ++ [Zsum (map sad (NumPy.ravel a))].
Proof.
  intros Hvalid Hfit.
  destruct (analyse_series long_bits Timestamp cfg now a s) as (Hs & _).
  rewrite Hs. now rewrite (sSAD_of_exact long_bits a Hvalid Hfit).
Qed.

(** C7: negating every [x], or every [y], in [int8] leaves the
    [motionEstimate] that [analyse] appends unchanged. *)
Theorem motionEstimate_negation_invariant now a s :
  valid_grid a = true ->
  motionEstimates (state_of (analyse long_bits cfg now (negate_x a) s))
  = motionEstimates (state_of (analyse long_bits cfg now a s)) /\
  motionEstimates (state_of (analyse long_bits cfg now (negate_y a) s))
  = motionEstimates (state_of (analyse long_bits cfg now a s)).
Proof.
  intros Hvalid.
  destruct (analyse_series long_bits Timestamp cfg now a s) as (_ & H & _).
  destruct (analyse_series long_bits Timestamp cfg now (negate_x a) s)
    as (_ & Hx & _).
  destruct (analyse_series long_bits Timestamp cfg now (negate_y a) s)
    as (_ & Hy & _).
  rewrite H, Hx, Hy.
  rewrite (motionEstimate_of_negate_x a Hvalid).
  rewrite (motionEstimate_of_negate_y a Hvalid).
  split; reflexivity.
Qed.

(** C8: for a grid cut after its first [k] rows, the [sSAD] of the top
    part plus the [sSAD] of the bottom part is the [sSAD] that
    [analyse] appends for the whole grid. *)
Theorem sSAD_additive_over_row_split now a s (k : nat) :
  valid_grid a = true ->
  NumPy.size a * NumPy.uint16_max < 2 ^ long_bits ->
  sSADs (state_of (analyse long_bits cfg now a s))
  = sSADs s ++ [sSAD_of long_bits (firstn k a)
                + sSAD_of long_bits (skipn k a)].
Proof.
  intros Hvalid Hfit.
  destruct (analyse_series long_bits Timestamp cfg now a s) as (Hs & _).
  rewrite Hs. f_equal. f_equal.
  pose proof (firstn_skipn k a) as Hsplit.
  assert (Hparts : valid_grid (firstn k a) = true /\
                   valid_grid (skipn k a) = true).
  { rewrite <- Hsplit in Hvalid. rewrite valid_grid_app in Hvalid.
    now apply andb_true_iff in Hvalid. }
  destruct Hparts as [Htop Hbottom].
  assert (Hsize : NumPy.size a
                  = NumPy.size (firstn k a) + NumPy.size (skipn k a))
    by (rewrite <- NumPyFacts.size_app; now rewrite Hsplit).
  pose proof (NumPyFacts.size_nonneg (firstn k a)) as Hn1.
  pose proof (NumPyFacts.size_nonneg (skipn k a)) as Hn2.
  unfold NumPy.uint16_max in *.
  rewrite (sSAD_of_exact long_bits a Hvalid)
    by (unfold NumPy.uint16_max; exact Hfit).
  rewrite (sSAD_of_exact long_bits (firstn k a) Htop)
    by (unfold NumPy.uint16_max; lia).
  rewrite (sSAD_of_exact long_bits (skipn k a) Hbottom)
    by (unfold NumPy.uint16_max; lia).
  rewrite <- NumPyFacts.Zsum_app, <- map_app, <- NumPyFacts.ravel_app.
  now rewrite Hsplit.
Qed.

End Measures.

(** ** The detection path *)

Section Detection.

Variable long_bits : Z.
Variable Timestamp : Type.
Variable cfg : config.

Implicit Types (now : Timestamp) (a : grid) (s : State Timestamp).

Lemma row_column_spec (index c row col : Z) :
  0 <= index -> 0 < c ->
  row_column index c = Some (row, col) ->
  row = index / c /\ row * c + col = index /\ 0 <= col < c.
Proof.
  intros Hi Hc. unfold row_column.
  destruct (Z.eqb_spec c 0) as [H0 | _]; [lia |].
  intros H. injection H as <- <-.
  rewrite (Z.quot_div_nonneg index c Hi Hc).
  pose proof (Z.div_mod index c ltac:(lia)) as Hdm.
  pose proof (Z.mod_pos_bound index c Hc) as Hmod.
  repeat split; lia.
Qed.

(** When a detection fires and the call returns, the two flat indices
    are first maxima of the [int8] absolute values, and the reported
    rows and columns decompose them along [columnsPerRow]. *)
Lemma detection_coordinates now a s s' d :
  0 < columnsPerRow cfg ->
  analyse long_bits cfg now a s = Returned s' (Some d) ->
  (exists v, first_max (NumPy.ravel (Xabs_of a)) (indexMaxXabs d) v) /\
  (exists v, first_max (NumPy.ravel (Yabs_of a)) (indexMaxYabs d) v) /\
  rowForMaxXabs d = indexMaxXabs d / columnsPerRow cfg /\
  rowForMaxXabs d * columnsPerRow cfg + columnForMaxXabs d = indexMaxXabs d /\
  0 <= columnForMaxXabs d < columnsPerRow cfg /\
  rowForMaxYabs d = indexMaxYabs d / columnsPerRow cfg /\
  rowForMaxYabs d * columnsPerRow cfg + columnForMaxYabs d = indexMaxYabs d /\
  0 <= columnForMaxYabs d < columnsPerRow cfg.
Proof.
  intros Hc. unfold analyse. cbv zeta.
  fold (Xabs_of a). fold (Yabs_of a).
  destruct (motionDetectionThreshold cfg <? _); [| discriminate].
  unfold NumPy.argmax.
  destruct (NumPy.argmax_list (NumPy.ravel (Xabs_of a))) as [iX |] eqn:HX;
    [| discriminate].
  destruct (NumPy.argmax_list (NumPy.ravel (Yabs_of a))) as [iY |] eqn:HY;
    [| discriminate].
  destruct (row_column iX _) as [[rX cX] |] eqn:HrX; [| discriminate].
  destruct (row_column iY _) as [[rY cY] |] eqn:HrY; [| discriminate].
  intros H. injection H as _ <-. cbn [indexMaxXabs indexMaxYabs rowForMaxXabs
    columnForMaxXabs rowForMaxYabs columnForMaxYabs].
  destruct (NumPyFacts.argmax_list_first_max _ _ HX) as [vX HfX].
  destruct (NumPyFacts.argmax_list_first_max _ _ HY) as [vY HfY].
  assert (HiX : 0 <= iX) by (destruct HfX; assumption).
  assert (HiY : 0 <= iY) by (destruct HfY; assumption).
  destruct (row_column_spec iX _ rX cX HiX Hc HrX) as (X1 & X2 & X3).
  destruct (row_column_spec iY _ rY cY HiY Hc HrY) as (Y1 & Y2 & Y3).
  split; [now exists vX |]. split; [now exists vY |].
  repeat split; lia.
Qed.

End Detection.

(** C1: on the 1x1 grid whose macroblock has [x = -128], the value
    [analyse] appends to [motionEstimates] is -128, with 32-bit as with
    64-bit accumulators, while the sum of the absolute values of the
    components is 128. *)
Theorem motionEstimate_wraps_at_int8_min (Timestamp : Type) (cfg : config)
  (now : Timestamp) (s : State Timestamp) :
  motionEstimates (state_of (analyse 32 cfg now int8_min_grid s))
  = motionEstimates s ++ [-128] /\
  motionEstimates (state_of (analyse 64 cfg now int8_min_grid s))
  = motionEstimates s ++ [-128] /\
  Zsum (map Z.abs (map x (NumPy.ravel int8_min_grid)))
  + Zsum (map Z.abs (map y (NumPy.ravel int8_min_grid))) = 128.
Proof.
  destruct (analyse_series 32 Timestamp cfg now int8_min_grid s)
    as (_ & H32 & _).
  destruct (analyse_series 64 Timestamp cfg now int8_min_grid s)
    as (_ & H64 & _).
  rewrite H32, H64. repeat split; reflexivity.
Qed.

(** C4: on the one-row grid with [x = -128] first and [x = 127] in the
    ten next macroblocks, under the default configuration, a detection
    fires and [analyse] reports flat index 1 (row 0, column 1) for the
    largest x component, while the macroblock with the largest [|x|],
    128, is the one at flat index 0. *)
Theorem argmax_misses_int8_min (Timestamp : Type) (now : Timestamp)
  (s : State Timestamp) :
  (exists s',
     analyse 32 default_config now grid_with_int8_min s
     = Returned s'
         (Some {| indexMaxXabs := 1; indexMaxYabs := 0;
                  rowForMaxXabs := 0; columnForMaxXabs := 1;
                  rowForMaxYabs := 0; columnForMaxYabs := 0 |})) /\
  (exists s',
     analyse 64 default_config now grid_with_int8_min s
     = Returned s'
         (Some {| indexMaxXabs := 1; indexMaxYabs := 0;
                  rowForMaxXabs := 0; columnForMaxXabs := 1;
                  rowForMaxYabs := 0; columnForMaxYabs := 0 |})) /\
  first_max (map Z.abs (map x (NumPy.ravel grid_with_int8_min))) 0 128.
Proof.
  split; [| split].
  - eexists. vm_compute. reflexivity.
  - eexists. vm_compute. reflexivity.
  - unfold first_max. split; [lia |]. split; [reflexivity |]. split.
    + intros j u Hj.
      do 11 (destruct j as [| j]; [injection Hj as <-; lia |]).
      destruct j; discriminate.
    + intros j u Hj. simpl in Hj. lia.
Qed.

(** ** A whole time slice *)

Section TimeSlice.

Variable long_bits : Z.
Variable Timestamp : Type.
Variable str_time : Timestamp -> string.
Variable cfg : config.

Implicit Types (now : Timestamp) (a : grid) (s : State Timestamp).
Implicit Types (fs : list (frame Timestamp)) (previous : option (State Timestamp)).

(** C5: a new time slice starts with the frame counter at 1; every call
    of [analyse] on a well-shaped array returns with the counter
    advanced by exactly one, whether or not a detection fired; so after
    the frames of a slice the counter is one more than their number. *)
Theorem frame_counter_counts_calls previous now a s fs :
  columnsPerRow cfg <> 0 ->
  well_shaped a = true ->
  forallb (fun f => well_shaped (snd f)) fs = true ->
  currentFrame (start_time_slice previous) = 1 /\
  (exists s' d,
     analyse long_bits cfg now a s = Returned s' d /\
     currentFrame s' = currentFrame s + 1) /\
  (exists s',
     record_frames long_bits cfg fs (start_time_slice previous) = Completed s' /\
     currentFrame s' = 1 + Z.of_nat (List.length fs)).
Proof.
  intros Hc Ha Hfs. split; [reflexivity |]. split.
  - exact (analyse_returns long_bits Timestamp cfg now a s Ha Hc).
  - destruct (record_frames_series long_bits Timestamp cfg Hc fs
                (start_time_slice previous) Hfs)
      as (s' & Hrun & _ & _ & _ & _ & Hframe).
    exists s'. split; [exact Hrun | exact Hframe].
Qed.

(** C6: after the frames of a slice, [sSADs] and [motionEstimates] hold
    one entry per call, and the two detection series have the same
    length, the number of calls whose [motionEstimate] was above the
    threshold. *)
Theorem series_lengths previous fs :
  columnsPerRow cfg <> 0 ->
  forallb (fun f => well_shaped (snd f)) fs = true ->
  exists s,
    record_frames long_bits cfg fs (start_time_slice previous) = Completed s /\
    List.length (sSADs s) = List.length fs /\
    List.length (motionEstimates s) = List.length fs /\
    List.length (motionDetectionTimes s)
    = List.length (motionDetectionFrameNumbers s) /\
    List.length (motionDetectionTimes s)
    = List.length (filter (detects long_bits cfg) fs).
Proof.
  intros Hc Hfs.
  destruct (record_frames_series long_bits Timestamp cfg Hc fs
              (start_time_slice previous) Hfs)
    as (s & Hrun & H1 & H2 & H3 & H4 & _).
  exists s. split; [exact Hrun |].
  rewrite H1, H2, H3, H4. cbn [start_time_slice sSADs motionEstimates
    motionDetectionTimes motionDetectionFrameNumbers currentFrame app].
  rewrite !length_map.
  repeat split; try reflexivity.
  apply (detections_length long_bits Timestamp cfg 1 fs).
Qed.

(** C9: at the end of a slice the SADs log holds the line
    [<frame index>: <sSAD>] for every analysed frame, indices starting
    at 1, in frame order; the motionEstimate log likewise holds
    [<frame index>: <motionEstimate>]; and the detection-times log
    holds the line [<frame index>: <timestamp>] for the frames that
    fired only, in the order they fired. *)
Theorem logs_at_teardown previous fs :
  columnsPerRow cfg <> 0 ->
  forallb (fun f => well_shaped (snd f)) fs = true ->
  time_slice long_bits str_time cfg previous fs
  = Some
      {| sSADsfile :=
           log_text
             (map (fun kf => (fst kf, str_int (sSAD_of long_bits (snd (snd kf)))))
                (numbered fs));
         motionEstimateFile :=
           log_text
             (map (fun kf =>
                     (fst kf, str_int (motionEstimate_of long_bits (snd (snd kf)))))
                (numbered fs));
         motionDetectionTimesFile :=
           log_text
             (map (fun kf => (fst kf, str_time (fst (snd kf))))
                (detections long_bits cfg 1 fs)) |}.
Proof.
  intros Hc Hfs. unfold time_slice.
  destruct (record_frames_series long_bits Timestamp cfg Hc fs
              (start_time_slice previous) Hfs)
    as (s & Hrun & H1 & H2 & H3 & H4 & _).
  rewrite Hrun. unfold flush. rewrite H1, H2, H3, H4.
  cbn [start_time_slice sSADs motionEstimates motionDetectionTimes
    motionDetectionFrameNumbers currentFrame app].
  rewrite !write_lines_series.
  pose proof (write_lines_detections Timestamp str_time
                (detections long_bits cfg 1 fs) fst) as Hdetections.
  cbv beta delta [frame] in Hdetections |- *. rewrite Hdetections.
  unfold numbered. rewrite !number_from_map, !map_map.
  reflexivity.
Qed.

(** C10: within a slice the recorded detection frame numbers increase
    strictly; each one is the index, counted from 1, of the frame that
    fired, hence at least 1 and below the value the counter has
    reached. *)
Theorem detection_frame_numbers_increasing previous fs :
  columnsPerRow cfg <> 0 ->
  forallb (fun f => well_shaped (snd f)) fs = true ->
  exists s,
    record_frames long_bits cfg fs (start_time_slice previous) = Completed s /\
    motionDetectionFrameNumbers s
    = map fst (filter (fun kf => detects long_bits cfg (snd kf)) (numbered fs)) /\
    StronglySorted Z.lt (motionDetectionFrameNumbers s) /\
    Forall (fun n => 1 <= n < currentFrame s) (motionDetectionFrameNumbers s).
Proof.
  intros Hc Hfs.
  destruct (record_frames_series long_bits Timestamp cfg Hc fs
              (start_time_slice previous) Hfs)
    as (s & Hrun & _ & _ & _ & H4 & H5).
  exists s. split; [exact Hrun |].
  rewrite H4, H5. cbn [start_time_slice motionDetectionFrameNumbers
    currentFrame app].
  destruct (detections_increasing long_bits Timestamp cfg 1 fs)
    as [Hsorted Hrange].
  split; [reflexivity |]. split; assumption.
Qed.

End TimeSlice.

(** ** The worked example: a still frame, then a frame with motion *)

Lemma sSAD_is_exact_sum_witness :
  valid_grid still_grid = true /\
  NumPy.size still_grid * NumPy.uint16_max < 2 ^ 32 /\
  sSADs (state_of (analyse 32 example_config 1000 still_grid
                     (start_time_slice None)))
  = [100].
Proof.
  split; [reflexivity |]. split; [reflexivity |].
  exact (sSAD_is_exact_sum 32 Z example_config 1000 still_grid
           (start_time_slice None) eq_refl eq_refl).
Defined.

Lemma motionEstimate_negation_invariant_witness :
  valid_grid moving_grid = true /\
  motionEstimates (state_of (analyse 32 example_config 1001
                               (negate_x moving_grid) (start_time_slice None)))
  = [55] /\
  motionEstimates (state_of (analyse 32 example_config 1001
                               (negate_y moving_grid) (start_time_slice None)))
  = [55].
Proof.
  split; [reflexivity |].
  exact (motionEstimate_negation_invariant 32 Z example_config 1001
           moving_grid (start_time_slice None) eq_refl).
Defined.

Lemma sSAD_additive_over_row_split_witness :
  valid_grid still_grid = true /\
  NumPy.size still_grid * NumPy.uint16_max < 2 ^ 32 /\
  sSADs (state_of (analyse 32 example_config 1000 still_grid
                     (start_time_slice None)))
  = [30 + 70].
Proof.
  split; [reflexivity |]. split; [reflexivity |].
  exact (sSAD_additive_over_row_split 32 Z example_config 1000 still_grid
           (start_time_slice None) 1 eq_refl eq_refl).
Defined.

Lemma example_columns_nonzero : columnsPerRow example_config <> 0.
Proof. discriminate. Defined.

Lemma frame_counter_counts_calls_witness :
  columnsPerRow example_config <> 0 /\
  well_shaped moving_grid = true /\
  forallb (fun f => well_shaped (snd f)) example_frames = true /\
  currentFrame (start_time_slice (@None (State Z))) = 1 /\
  (exists s' d,
     analyse 32 example_config 1001 moving_grid
       (mk_State [100] [0] [] [] 2) = Returned s' d /\
     currentFrame s' = 2 + 1) /\
  (exists s',
     record_frames 32 example_config example_frames (start_time_slice None)
     = Completed s' /\
     currentFrame s' = 1 + 2).
Proof.
  split; [exact example_columns_nonzero |].
  split; [reflexivity |]. split; [reflexivity |].
  exact (frame_counter_counts_calls 32 Z example_config None 1001 moving_grid
           (mk_State [100] [0] [] [] 2) example_frames
           example_columns_nonzero eq_refl eq_refl).
Defined.

Lemma series_lengths_witness :
  columnsPerRow example_config <> 0 /\
  forallb (fun f => well_shaped (snd f)) example_frames = true /\
  exists s,
    record_frames 32 example_config example_frames (start_time_slice None)
    = Completed s /\
    List.length (sSADs s) = 2%nat /\
    List.length (motionEstimates s) = 2%nat /\
    List.length (motionDetectionTimes s)
    = List.length (motionDetectionFrameNumbers s) /\
    List.length (motionDetectionTimes s) = 1%nat.
Proof.
  split; [exact example_columns_nonzero |]. split; [reflexivity |].
  exact (series_lengths 32 Z example_config None example_frames
           example_columns_nonzero eq_refl).
Defined.

Lemma logs_at_teardown_witness :
  columnsPerRow example_config <> 0 /\
  forallb (fun f => well_shaped (snd f)) example_frames = true /\
  time_slice 32 str_int example_config None example_frames
  = Some
      {| sSADsfile := ("1: 100" ++ newline ++ "2: 0" ++ newline)%string;
         motionEstimateFile := ("1: 0" ++ newline ++ "2: 55" ++ newline)%string;
         motionDetectionTimesFile := ("2: 1001" ++ newline)%string |}.
Proof.
  split; [exact example_columns_nonzero |]. split; [reflexivity |].
  exact (logs_at_teardown 32 Z str_int example_config None example_frames
           example_columns_nonzero eq_refl).
Defined.

Lemma detection_frame_numbers_increasing_witness :
  columnsPerRow example_config <> 0 /\
  forallb (fun f => well_shaped (snd f)) example_frames = true /\
  exists s,
    record_frames 32 example_config example_frames (start_time_slice None)
    = Completed s /\
    motionDetectionFrameNumbers s = [2] /\
    StronglySorted Z.lt (motionDetectionFrameNumbers s) /\
    Forall (fun n => 1 <= n < currentFrame s) (motionDetectionFrameNumbers s).
Proof.
  split; [exact example_columns_nonzero |]. split; [reflexivity |].
  exact (detection_frame_numbers_increasing 32 Z example_config None
           example_frames example_columns_nonzero eq_refl).
Defined.

(** ** How a call ends *)

Section Outcome.

Variable long_bits : Z.
Variable Timestamp : Type.
Variable cfg : config.

Implicit Types (now : Timestamp) (a : grid) (s : State Timestamp).

Lemma wrap_signed_zero (w : Z) : NumPy.wrap_signed w 0 = 0.
Proof.
  unfold NumPy.wrap_signed. rewrite Z.add_0_l.
  destruct (Z.neg_nonneg_cases (w - 1)) as [Hneg | Hpos].
  - rewrite (Z.pow_neg_r 2 (w - 1)) by exact Hneg. now rewrite Zmod_0_l.
  - rewrite Z.mod_small; [lia |]. rewrite (NumPyFacts.two_halves w Hpos).
    assert (0 < 2 ^ (w - 1)) by (apply Z.pow_pos_nonneg; lia). lia.
Qed.


Lemma motionEstimate_of_empty a :
  NumPy.size a = 0 -> motionEstimate_of long_bits a = 0.
Proof.
  intros Hsize. unfold motionEstimate_of, Xabs_of, Yabs_of. cbv zeta.
  unfold NumPy.sum_int. rewrite !NumPyFacts.ravel_map2d.
  unfold NumPy.size in Hsize.
  destruct (NumPy.ravel a) as [| m l]; [| simpl in Hsize; lia].
  simpl. unfold NumPy.add_int. apply wrap_signed_zero.
Qed.

(** At or below the threshold the call returns after the two
    unconditional appends. *)
Lemma analyse_below now a s :
  motionEstimate_of long_bits a <= motionDetectionThreshold cfg ->
  analyse long_bits cfg now a s
  = Returned
      {| sSADs := sSADs s ++ [sSAD_of long_bits a];
         motionEstimates :=
           motionEstimates s ++ [motionEstimate_of long_bits a];
         motionDetectionTimes := motionDetectionTimes s;
         motionDetectionFrameNumbers := motionDetectionFrameNumbers s;
         currentFrame := currentFrame s + 1 |}
      None.
Proof.
  intros Hle. unfold analyse. cbv zeta.
  change (NumPy.add_int long_bits
            (NumPy.sum_int long_bits
               (NumPy.map2d NumPy.absolute_int8 (NumPy.map2d x a)))
            (NumPy.sum_int long_bits
               (NumPy.map2d NumPy.absolute_int8 (NumPy.map2d y a))))
    with (motionEstimate_of long_bits a).
  destruct (Z.ltb_spec (motionDetectionThreshold cfg)
              (motionEstimate_of long_bits a)) as [Hgt | _]; [lia |].
  reflexivity.
Qed.

(** Above the threshold the call ends as the two [np.argmax] and the two
    divisions decide, with the detection already recorded. *)
Lemma analyse_above now a s :
  motionDetectionThreshold cfg < motionEstimate_of long_bits a ->
  let s3 :=
    {| sSADs := sSADs s ++ [sSAD_of long_bits a];
       motionEstimates := motionEstimates s ++ [motionEstimate_of long_bits a];
       motionDetectionTimes := motionDetectionTimes s ++ [now];
       motionDetectionFrameNumbers :=
         motionDetectionFrameNumbers s ++ [currentFrame s];
       currentFrame := currentFrame s |} in
  analyse long_bits cfg now a s
  = match NumPy.argmax (Xabs_of a), NumPy.argmax (Yabs_of a) with
    | Some iX, Some iY =>
        match row_column iX (columnsPerRow cfg),
              row_column iY (columnsPerRow cfg) with
        | Some (rX, cX), Some (rY, cY) =>
            Returned
              {| sSADs := sSADs s3;
                 motionEstimates := motionEstimates s3;
                 motionDetectionTimes := motionDetectionTimes s3;
                 motionDetectionFrameNumbers := motionDetectionFrameNumbers s3;
                 currentFrame := currentFrame s + 1 |}
              (Some {| indexMaxXabs := iX; indexMaxYabs := iY;
                       rowForMaxXabs := rX; columnForMaxXabs := cX;
                       rowForMaxYabs := rY; columnForMaxYabs := cY |})
        | _, _ => Raised s3
        end
    | _, _ => Raised s3
    end.
Proof.
  intros Hgt. cbv zeta. unfold analyse. cbv zeta.
  change (NumPy.add_int long_bits
            (NumPy.sum_int long_bits
               (NumPy.map2d NumPy.absolute_int8 (NumPy.map2d x a)))
            (NumPy.sum_int long_bits
               (NumPy.map2d NumPy.absolute_int8 (NumPy.map2d y a))))
    with (motionEstimate_of long_bits a).
  fold (Xabs_of a). fold (Yabs_of a).
  destruct (Z.ltb_spec (motionDetectionThreshold cfg)
              (motionEstimate_of long_bits a)) as [_ | Hle]; [| lia].
  destruct (NumPy.argmax (Xabs_of a)) as [iX |]; [| reflexivity].
  destruct (NumPy.argmax (Yabs_of a)) as [iY |]; [| reflexivity].
  destruct (row_column iX (columnsPerRow cfg)) as [[rX cX] |];
    [| reflexivity].
  destruct (row_column iY (columnsPerRow cfg)) as [[rY cY] |]; reflexivity.
Qed.

Lemma size_Xabs_of a : NumPy.size (Xabs_of a) = NumPy.size a.
Proof. unfold Xabs_of. now rewrite !NumPyFacts.size_map2d. Qed.

Lemma size_Yabs_of a : NumPy.size (Yabs_of a) = NumPy.size a.
Proof. unfold Yabs_of. now rewrite !NumPyFacts.size_map2d. Qed.



End Outcome.

(** ** Recording under the configuration of the script *)

Section Recording.

Variable long_bits : Z.
Variable Timestamp : Type.
Variable cfg : config.

Implicit Types (now : Timestamp) (a : grid) (s : State Timestamp).
Implicit Types (fs : list (frame Timestamp)).

(** With a threshold that is not negative, an array without macroblocks
    cannot fire, so only a zero [columnsPerRow] could make a call
    raise. *)
Lemma analyse_returns_nonneg now a s :
  0 <= motionDetectionThreshold cfg ->
  columnsPerRow cfg <> 0 ->
  exists s' d,
    analyse long_bits cfg now a s = Returned s' d /\
    currentFrame s' = currentFrame s + 1.
Proof.
  intros Hthr Hc.
  destruct (Z.lt_ge_cases (motionDetectionThreshold cfg)
              (motionEstimate_of long_bits a)) as [Hgt | Hle].
  - apply analyse_returns; [| exact Hc].
    unfold well_shaped. apply Z.ltb_lt.
    pose proof (NumPyFacts.size_nonneg a) as Hsize.
    destruct (Z.eq_dec (NumPy.size a) 0) as [H0 | Hn0]; [| lia].
    rewrite (motionEstimate_of_empty long_bits a H0) in Hgt. lia.
  - rewrite (analyse_below long_bits Timestamp cfg now a s Hle).
    eexists. eexists. split; reflexivity.
Qed.

(** The series after a recording in which every call returns. *)
Lemma record_frames_series_of_returns fs s :
  (forall now a s0, In (now, a) fs ->
     exists s' d,
       analyse long_bits cfg now a s0 = Returned s' d /\
       currentFrame s' = currentFrame s0 + 1) ->
  exists s',
    record_frames long_bits cfg fs s = Completed s' /\
    sSADs s' = sSADs s ++ map (fun f => sSAD_of long_bits (snd f)) fs /\
    motionEstimates s' =
      motionEstimates s
        ++ map (fun f => motionEstimate_of long_bits (snd f)) fs /\
    motionDetectionTimes s' =
      motionDetectionTimes s
        ++ map (fun kf => fst (snd kf))
             (detections long_bits cfg (currentFrame s) fs) /\
    motionDetectionFrameNumbers s' =
      motionDetectionFrameNumbers s
        ++ map fst (detections long_bits cfg (currentFrame s) fs) /\
    currentFrame s' = currentFrame s + Z.of_nat (List.length fs).
Proof.
  revert s. induction fs as [| [now a] fs IH]; intros s Hret.
  - exists s. simpl. rewrite !app_nil_r, Z.add_0_r. repeat split; reflexivity.
  - destruct (Hret now a s (or_introl eq_refl)) as (s1 & d & Hcall & Hframe).
    pose proof (analyse_series long_bits Timestamp cfg now a s) as Hseries.
    cbv zeta in Hseries. rewrite Hcall in Hseries. simpl state_of in Hseries.
    destruct Hseries as (H1 & H2 & H3 & H4).
    destruct (IH s1 (fun now' a' s0 Hin => Hret now' a' s0 (or_intror Hin)))
      as (s' & Hrun & R1 & R2 & R3 & R4 & R5).
    exists s'. simpl record_frames. rewrite Hcall.
    split; [exact Hrun |].
    change (motionDetectionThreshold cfg <? motionEstimate_of long_bits a)
      with (detects long_bits cfg (now, a)) in H3, H4.
    rewrite R1, R2, R3, R4, R5, H1, H2, H3, H4, Hframe.
    unfold detections. cbn [number_from filter snd].
    change (List.length ((now, a) :: fs)) with (S (List.length fs)).
    rewrite Nat2Z.inj_succ.
    destruct (detects long_bits cfg (now, a));
      cbn [map fst snd]; rewrite <- ?app_assoc; cbn [app];
      rewrite ?app_nil_r; repeat split; try reflexivity; lia.
Qed.

(** X2: with a threshold that is not negative and a non-zero
    [columnsPerRow], as in the script, a recording never aborts, whatever
    arrays are delivered (arrays without macroblocks included): every
    frame is analysed, [sSADs] and [motionEstimates] hold the measures
    of the frames in frame order, and the counter has advanced by the
    number of frames. *)
Theorem recording_never_aborts fs s :
  0 <= motionDetectionThreshold cfg ->
  columnsPerRow cfg <> 0 ->
  exists s',
    record_frames long_bits cfg fs s = Completed s' /\
    sSADs s' = sSADs s ++ map (fun f => sSAD_of long_bits (snd f)) fs /\
    motionEstimates s' =
      motionEstimates s
        ++ map (fun f => motionEstimate_of long_bits (snd f)) fs /\
    currentFrame s' = currentFrame s + Z.of_nat (List.length fs).
Proof.
  intros Hthr Hc.
  destruct (record_frames_series_of_returns fs s
              (fun now a s0 _ => analyse_returns_nonneg now a s0 Hthr Hc))
    as (s' & Hrun & H1 & H2 & _ & _ & H5).
  exists s'. repeat split; assumption.
Qed.

Lemma zero_grid_sums (f : macroblock -> Z) (l : list macroblock) :
  (forall m, In m l -> f m = 0) -> Zsum (map f l) = 0.
Proof.
  induction l as [| m l IH]; intros H; simpl; [reflexivity |].
  rewrite (H m (or_introl eq_refl)).
  rewrite IH; [reflexivity |]. intros m' Hm'. apply H. now right.
Qed.

Lemma zero_grid_cells a :
  zero_grid a = true ->
  forall m, In m (NumPy.ravel a) -> x m = 0 /\ y m = 0 /\ sad m = 0.
Proof.
  intros Hzero m Hin. unfold NumPy.ravel in Hin. apply in_concat in Hin.
  destruct Hin as (row & Hrow & Hm).
  unfold zero_grid in Hzero. rewrite forallb_forall in Hzero.
  specialize (Hzero row Hrow). rewrite forallb_forall in Hzero.
  specialize (Hzero m Hm).
  apply andb_true_iff in Hzero. destruct Hzero as [Hxy Hsad].
  apply andb_true_iff in Hxy. destruct Hxy as [Hx Hy].
  apply Z.eqb_eq in Hx. apply Z.eqb_eq in Hy. apply Z.eqb_eq in Hsad.
  auto.
Qed.

Lemma zero_grid_measures a :
  zero_grid a = true ->
  sSAD_of long_bits a = 0 /\ motionEstimate_of long_bits a = 0.
Proof.
  intros Hzero. pose proof (zero_grid_cells a Hzero) as Hcells. split.
  - unfold sSAD_of.
    rewrite NumPyFacts.sum_uint_wrap, NumPyFacts.ravel_map2d.
    rewrite (zero_grid_sums sad) by (intros m Hm; now apply Hcells).
    unfold NumPy.wrap_unsigned. apply Zmod_0_l.
  - unfold motionEstimate_of, Xabs_of, Yabs_of. cbv zeta.
    rewrite !NumPyFacts.sum_int_wrap, !NumPyFacts.ravel_map2d, !map_map.
    rewrite (zero_grid_sums (fun m => NumPy.absolute_int8 (x m)))
      by (intros m Hm; destruct (Hcells m Hm) as (-> & _); reflexivity).
    rewrite (zero_grid_sums (fun m => NumPy.absolute_int8 (y m)))
      by (intros m Hm; destruct (Hcells m Hm) as (_ & -> & _); reflexivity).
    rewrite wrap_signed_zero. unfold NumPy.add_int. apply wrap_signed_zero.
Qed.

(** X3: on an array whose fields are all zero (the motion data of an
    I-frame), of any shape and with any accumulator width, [analyse]
    appends 0 to [sSADs] and to [motionEstimates], records no detection
    when the threshold is not negative, and advances the counter. *)
Theorem analyse_zero_grid now a s :
  zero_grid a = true ->
  0 <= motionDetectionThreshold cfg ->
  analyse long_bits cfg now a s
  = Returned
      {| sSADs := sSADs s ++ [0];
         motionEstimates := motionEstimates s ++ [0];
         motionDetectionTimes := motionDetectionTimes s;
         motionDetectionFrameNumbers := motionDetectionFrameNumbers s;
         currentFrame := currentFrame s + 1 |}
      None.
Proof.
  intros Hzero Hthr.
  destruct (zero_grid_measures a Hzero) as [Hs Hm].
  rewrite (analyse_below long_bits Timestamp cfg now a s)
    by (rewrite Hm; exact Hthr).
  now rewrite Hs, Hm.
Qed.

End Recording.

Lemma recording_never_aborts_witness :
  0 <= motionDetectionThreshold example_config /\
  columnsPerRow example_config <> 0 /\
  exists s',
    record_frames 32 example_config frames_with_empty (start_time_slice None)
    = Completed s' /\
    sSADs s' = [100; 0; 0] /\
    motionEstimates s' = [0; 0; 55] /\
    currentFrame s' = 1 + 3.
Proof.
  split; [discriminate |]. split; [exact example_columns_nonzero |].
  exact (recording_never_aborts 32 Z example_config frames_with_empty
           (start_time_slice None) ltac:(discriminate)
           example_columns_nonzero).
Defined.

Lemma analyse_zero_grid_witness :
  zero_grid (NumPy.map2d (fun _ => {| x := 0; y := 0; sad := 0 |}) still_grid)
  = true /\
  0 <= motionDetectionThreshold default_config /\
  analyse 64 default_config 1000
    (NumPy.map2d (fun _ => {| x := 0; y := 0; sad := 0 |}) still_grid)
    (mk_State [5] [6] [7] [1] 2)
  = Returned (mk_State [5; 0] [6; 0] [7] [1] 3) None.
Proof.
  split; [reflexivity |]. split; [discriminate |].
  exact (analyse_zero_grid 64 Z default_config 1000
           (NumPy.map2d (fun _ => {| x := 0; y := 0; sad := 0 |}) still_grid)
           (mk_State [5] [6] [7] [1] 2) eq_refl ltac:(discriminate)).
Defined.

(** ** The motion estimate in the presence of the least [int8] *)

Section MotionEstimate.

Variable long_bits : Z.
Variable Timestamp : Type.
Variable cfg : config.

Implicit Types (now : Timestamp) (a : grid) (s : State Timestamp).

Lemma absolute_int8_sum (l : list Z) :
  (forall v, In v l -> NumPy.is_int8 v = true) ->
  Zsum (map NumPy.absolute_int8 l)
  = Zsum (map Z.abs l)
    - 256 * Z.of_nat (List.length (filter (fun v => v =? NumPy.int8_min) l)) /\
  - 128 * Z.of_nat (List.length l)
  <= Zsum (map NumPy.absolute_int8 l)
  <= 127 * Z.of_nat (List.length l).
Proof.
  induction l as [| v l IH]; intros H.
  - simpl. lia.
  - destruct (IH (fun v' Hv' => H v' (or_intror Hv'))) as [IHeq IHb].
    pose proof (H v (or_introl eq_refl)) as Hrange.
    pose proof (NumPyFacts.absolute_int8_spec v Hrange) as Habs.
    unfold NumPy.is_int8, NumPy.int8_min, NumPy.int8_max in Hrange.
    apply andb_true_iff in Hrange. destruct Hrange as [Hlo Hhi].
    apply Z.leb_le in Hlo. apply Z.leb_le in Hhi.
    change (Zsum (map NumPy.absolute_int8 (v :: l)))
      with (NumPy.absolute_int8 v + Zsum (map NumPy.absolute_int8 l)).
    change (Zsum (map Z.abs (v :: l))) with (Z.abs v + Zsum (map Z.abs l)).
    change (List.length (v :: l)) with (S (List.length l)).
    cbn [filter]. rewrite Nat2Z.inj_succ, Habs, IHeq.
    unfold NumPy.int8_min in *.
    destruct (Z.eqb_spec v (-128)) as [-> | Hne].
    + cbn [List.length]. rewrite Nat2Z.inj_succ. simpl Z.abs. lia.
    + lia.
Qed.

Lemma valid_cells a :
  valid_grid a = true ->
  forall m, In m (NumPy.ravel a) ->
    NumPy.is_int8 (x m) = true /\ NumPy.is_int8 (y m) = true.
Proof.
  intros Hvalid m Hin.
  pose proof (valid_ravel a Hvalid) as Hcells.
  rewrite forallb_forall in Hcells. specialize (Hcells m Hin).
  split; [now apply valid_macroblock_x | now apply valid_macroblock_y].
Qed.

Lemma in_map_field (f : macroblock -> Z) (l : list macroblock) (P : Z -> Prop) :
  (forall m, In m l -> P (f m)) -> forall v, In v (map f l) -> P v.
Proof.
  intros H v Hv. apply in_map_iff in Hv. destruct Hv as (m & <- & Hm).
  now apply H.
Qed.

(** The estimate as a sum over the two [int8] arrays of absolute
    values, when the array is small enough for the accumulator. *)
Lemma motionEstimate_of_int8_sums a :
  valid_grid a = true ->
  NumPy.size a * 256 < 2 ^ (long_bits - 1) ->
  motionEstimate_of long_bits a
  = Zsum (map NumPy.absolute_int8 (map x (NumPy.ravel a)))
    + Zsum (map NumPy.absolute_int8 (map y (NumPy.ravel a))).
Proof.
  intros Hvalid Hfit.
  pose proof (valid_cells a Hvalid) as Hcells.
  destruct (absolute_int8_sum (map x (NumPy.ravel a))
              (in_map_field x _ _ (fun m Hm => proj1 (Hcells m Hm))))
    as [_ Hxb].
  destruct (absolute_int8_sum (map y (NumPy.ravel a))
              (in_map_field y _ _ (fun m Hm => proj2 (Hcells m Hm))))
    as [_ Hyb].
  rewrite !length_map in Hxb, Hyb. unfold NumPy.size in Hfit.
  unfold motionEstimate_of, Xabs_of, Yabs_of, NumPy.add_int. cbv zeta.
  rewrite !NumPyFacts.sum_int_wrap, !NumPyFacts.ravel_map2d.
  rewrite (NumPyFacts.wrap_signed_small long_bits
             (Zsum (map NumPy.absolute_int8 (map x (NumPy.ravel a))))) by lia.
  rewrite (NumPyFacts.wrap_signed_small long_bits
             (Zsum (map NumPy.absolute_int8 (map y (NumPy.ravel a))))) by lia.
  apply NumPyFacts.wrap_signed_small. lia.
Qed.

(** X4: on an array of [int8] components that is small enough for the
    accumulator, the [motionEstimate] of [analyse] is the sum of the
    absolute values of all components minus 256 for every component
    that holds -128: such a component counts for -128 instead of
    128. *)
Theorem motionEstimate_formula a :
  valid_grid a = true ->
  NumPy.size a * 256 < 2 ^ (long_bits - 1) ->
  motionEstimate_of long_bits a
  = Zsum (map Z.abs (map x (NumPy.ravel a)))
    + Zsum (map Z.abs (map y (NumPy.ravel a)))
    - 256 * count_int8_min a.
Proof.
  intros Hvalid Hfit.
  rewrite (motionEstimate_of_int8_sums a Hvalid Hfit).
  pose proof (valid_cells a Hvalid) as Hcells.
  destruct (absolute_int8_sum (map x (NumPy.ravel a))
              (in_map_field x _ _ (fun m Hm => proj1 (Hcells m Hm))))
    as [Hx _].
  destruct (absolute_int8_sum (map y (NumPy.ravel a))
              (in_map_field y _ _ (fun m Hm => proj2 (Hcells m Hm))))
    as [Hy _].
  rewrite Hx, Hy. unfold count_int8_min.
  rewrite filter_app, length_app, Nat2Z.inj_add. lia.
Qed.

Lemma Zsum_abs_bounds (l : list Z) :
  (forall v, In v l -> NumPy.is_int8 v = true) ->
  0 <= Zsum (map Z.abs l)
  /\ Zsum (map Z.abs l)
     - 256 * Z.of_nat (List.length (filter (fun v => v =? NumPy.int8_min) l))
     <= 127 * Z.of_nat (List.length l).
Proof.
  intros H. destruct (absolute_int8_sum l H) as [Heq Hb].
  split; [| lia].
  clear. induction l as [| v l IH]; simpl; lia.
Qed.

(** X5: on such an array the [motionEstimate] is at most 254 per
    macroblock and at least -256 per macroblock; it is not negative when
    no component holds -128. *)
Theorem motionEstimate_bounds a :
  valid_grid a = true ->
  NumPy.size a * 256 < 2 ^ (long_bits - 1) ->
  (if no_int8_min a then 0 else - 256 * NumPy.size a)
  <= motionEstimate_of long_bits a
  <= 254 * NumPy.size a.
Proof.
  intros Hvalid Hfit.
  pose proof (valid_cells a Hvalid) as Hcells.
  pose proof (motionEstimate_of_int8_sums a Hvalid Hfit) as Hsums.
  destruct (absolute_int8_sum (map x (NumPy.ravel a))
              (in_map_field x _ _ (fun m Hm => proj1 (Hcells m Hm))))
    as [_ Hxb].
  destruct (absolute_int8_sum (map y (NumPy.ravel a))
              (in_map_field y _ _ (fun m Hm => proj2 (Hcells m Hm))))
    as [_ Hyb].
  destruct (Zsum_abs_bounds (map x (NumPy.ravel a))
              (in_map_field x _ _ (fun m Hm => proj1 (Hcells m Hm))))
    as [Hx0 _].
  destruct (Zsum_abs_bounds (map y (NumPy.ravel a))
              (in_map_field y _ _ (fun m Hm => proj2 (Hcells m Hm))))
    as [Hy0 _].
  rewrite !length_map in Hxb, Hyb. unfold NumPy.size.
  destruct (no_int8_min a) eqn:Hmin.
  - pose proof (motionEstimate_of_exact long_bits a Hvalid Hmin Hfit) as Hexact.
    lia.
  - lia.
Qed.

(** X6: for a grid cut after its first [k] rows, the [motionEstimate]
    that [analyse] appends for the whole grid is the sum of the
    estimates of the two parts, when the grid is small enough for the
    accumulator. *)
Theorem motionEstimate_additive_over_row_split now a s (k : nat) :
  valid_grid a = true ->
  NumPy.size a * 256 < 2 ^ (long_bits - 1) ->
  motionEstimates (state_of (analyse long_bits cfg now a s))
  = motionEstimates s
      ++ [motionEstimate_of long_bits (firstn k a)
          + motionEstimate_of long_bits (skipn k a)].
Proof.
  intros Hvalid Hfit.
  destruct (analyse_series long_bits Timestamp cfg now a s) as (_ & Hm & _).
  rewrite Hm. f_equal. f_equal.
  pose proof (firstn_skipn k a) as Hsplit.
  assert (Hparts : valid_grid (firstn k a) = true /\
                   valid_grid (skipn k a) = true).
  { rewrite <- Hsplit in Hvalid. rewrite valid_grid_app in Hvalid.
    now apply andb_true_iff in Hvalid. }
  destruct Hparts as [Htop Hbottom].
  assert (Hsize : NumPy.size a
                  = NumPy.size (firstn k a) + NumPy.size (skipn k a))
    by (rewrite <- NumPyFacts.size_app; now rewrite Hsplit).
  pose proof (NumPyFacts.size_nonneg (firstn k a)) as Hn1.
  pose proof (NumPyFacts.size_nonneg (skipn k a)) as Hn2.
  rewrite (motionEstimate_of_int8_sums a Hvalid Hfit).
  rewrite (motionEstimate_of_int8_sums (firstn k a) Htop) by lia.
  rewrite (motionEstimate_of_int8_sums (skipn k a) Hbottom) by lia.
  rewrite <- Hsplit at 1 2.
  rewrite NumPyFacts.ravel_app, !map_app, !NumPyFacts.Zsum_app. lia.
Qed.

End MotionEstimate.

Lemma motionEstimate_formula_witness :
  valid_grid mixed_grid = true /\
  NumPy.size mixed_grid * 256 < 2 ^ (32 - 1) /\
  motionEstimate_of 32 mixed_grid = (128 + 100 + 127 + 127) + (3 + 4 + 0 + 5) - 256 * 1.
Proof.
  split; [reflexivity |]. split; [reflexivity |].
  exact (motionEstimate_formula 32 mixed_grid eq_refl eq_refl).
Defined.

Lemma motionEstimate_bounds_witness :
  valid_grid mixed_grid = true /\
  NumPy.size mixed_grid * 256 < 2 ^ (32 - 1) /\
  - 256 * 4 <= motionEstimate_of 32 mixed_grid <= 254 * 4.
Proof.
  split; [reflexivity |]. split; [reflexivity |].
  exact (motionEstimate_bounds 32 mixed_grid eq_refl eq_refl).
Defined.

Lemma motionEstimate_additive_over_row_split_witness :
  valid_grid mixed_grid = true /\
  NumPy.size mixed_grid * 256 < 2 ^ (32 - 1) /\
  motionEstimates (state_of (analyse 32 example_config 1000 mixed_grid
                               (start_time_slice None)))
  = [(-128 + 100 + 3 + 4) + (127 + 127 + 0 + 5)].
Proof.
  split; [reflexivity |]. split; [reflexivity |].
  exact (motionEstimate_additive_over_row_split 32 Z example_config 1000
           mixed_grid (start_time_slice None) 1 eq_refl eq_refl).
Defined.

(** ** Where the detection path points *)

Section Coordinates.

Variable long_bits : Z.
Variable Timestamp : Type.
Variable cfg : config.

Implicit Types (now : Timestamp) (a : grid) (s : State Timestamp).

(** A detection on an array with macroblocks, with a positive
    [columnsPerRow], returns with its locals. *)
Lemma analyse_detection_returns now a s :
  0 < columnsPerRow cfg ->
  well_shaped a = true ->
  motionDetectionThreshold cfg < motionEstimate_of long_bits a ->
  exists s' d, analyse long_bits cfg now a s = Returned s' (Some d).
Proof.
  intros Hc Hshape Hgt. unfold well_shaped in Hshape. apply Z.ltb_lt in Hshape.
  rewrite (analyse_above long_bits Timestamp cfg now a s Hgt). cbv zeta.
  destruct (NumPyFacts.argmax_defined (Xabs_of a)) as [iX ->];
    [now rewrite size_Xabs_of |].
  destruct (NumPyFacts.argmax_defined (Yabs_of a)) as [iY ->];
    [now rewrite size_Yabs_of |].
  destruct (row_column_defined iX (columnsPerRow cfg)) as (rX & cX & ->);
    [lia |].
  destruct (row_column_defined iY (columnsPerRow cfg)) as (rY & cY & ->);
    [lia |].
  eexists. eexists. reflexivity.
Qed.

Lemma ravel_abs_exact (f : macroblock -> Z) a :
  (forall m, In m (NumPy.ravel a) ->
     NumPy.is_int8 (f m) = true /\ f m <> NumPy.int8_min) ->
  NumPy.ravel (NumPy.map2d NumPy.absolute_int8 (NumPy.map2d f a))
  = map Z.abs (map f (NumPy.ravel a)).
Proof.
  intros H. rewrite !NumPyFacts.ravel_map2d, !map_map.
  apply map_ext_in. intros m Hm. destruct (H m Hm) as [Hrange Hmin].
  rewrite (NumPyFacts.absolute_int8_spec (f m) Hrange).
  destruct (Z.eqb_spec (f m) NumPy.int8_min); [contradiction | reflexivity].
Qed.

Lemma cells_without_int8_min a :
  valid_grid a = true ->
  no_int8_min a = true ->
  forall m, In m (NumPy.ravel a) ->
    (NumPy.is_int8 (x m) = true /\ x m <> NumPy.int8_min) /\
    (NumPy.is_int8 (y m) = true /\ y m <> NumPy.int8_min).
Proof.
  intros Hvalid Hmin m Hin.
  destruct (valid_cells a Hvalid m Hin) as [Hx Hy].
  unfold NumPy.ravel in Hin. apply in_concat in Hin.
  destruct Hin as (row & Hrow & Hm).
  unfold no_int8_min in Hmin. rewrite forallb_forall in Hmin.
  specialize (Hmin row Hrow). rewrite forallb_forall in Hmin.
  specialize (Hmin m Hm).
  apply andb_true_iff in Hmin. destruct Hmin as [Hmx Hmy].
  apply negb_true_iff in Hmx. apply negb_true_iff in Hmy.
  apply Z.eqb_neq in Hmx. apply Z.eqb_neq in Hmy. tauto.
Qed.

(** X7: when no component holds -128, a detection on an array with
    macroblocks returns the flat index of the first macroblock with the
    largest [|x|] and of the first one with the largest [|y|] in
    row-major order, each with [row = index / columnsPerRow],
    [row * columnsPerRow + column = index] and
    [0 <= column < columnsPerRow]. *)
Theorem detection_locates_largest_components now a s :
  valid_grid a = true ->
  no_int8_min a = true ->
  well_shaped a = true ->
  0 < columnsPerRow cfg ->
  motionDetectionThreshold cfg < motionEstimate_of long_bits a ->
  exists s' d,
    analyse long_bits cfg now a s = Returned s' (Some d) /\
    (exists v, first_max (map Z.abs (map x (NumPy.ravel a))) (indexMaxXabs d) v) /\
    (exists v, first_max (map Z.abs (map y (NumPy.ravel a))) (indexMaxYabs d) v) /\
    rowForMaxXabs d = indexMaxXabs d / columnsPerRow cfg /\
    rowForMaxXabs d * columnsPerRow cfg + columnForMaxXabs d = indexMaxXabs d /\
    0 <= columnForMaxXabs d < columnsPerRow cfg /\
    rowForMaxYabs d = indexMaxYabs d / columnsPerRow cfg /\
    rowForMaxYabs d * columnsPerRow cfg + columnForMaxYabs d = indexMaxYabs d /\
    0 <= columnForMaxYabs d < columnsPerRow cfg.
Proof.
  intros Hvalid Hmin Hshape Hc Hgt.
  destruct (analyse_detection_returns now a s Hc Hshape Hgt) as (s' & d & Hcall).
  exists s', d. split; [exact Hcall |].
  pose proof (detection_coordinates long_bits Timestamp cfg now a s s' d
                Hc Hcall) as Hcoord.
  pose proof (cells_without_int8_min a Hvalid Hmin) as Hcells.
  unfold Xabs_of, Yabs_of in Hcoord.
  rewrite (ravel_abs_exact x a (fun m Hm => proj1 (Hcells m Hm))) in Hcoord.
  rewrite (ravel_abs_exact y a (fun m Hm => proj2 (Hcells m Hm))) in Hcoord.
  exact Hcoord.
Qed.

(** In an array whose rows all have [c] elements, the element at flat
    index [r * c + j] is the element [j] of row [r]. *)
Lemma nth_error_ravel_rectangular {A : Type} (c : nat) (m : list (list A)) :
  (forall row, In row m -> List.length row = c) ->
  forall (r j : nat) (v : A),
    (j < c)%nat ->
    nth_error (NumPy.ravel m) (r * c + j) = Some v ->
    exists row, nth_error m r = Some row /\ nth_error row j = Some v.
Proof.
  unfold NumPy.ravel.
  induction m as [| row0 m IH]; intros Hrows r j v Hj Hnth.
  - simpl in Hnth. destruct (r * c + j)%nat; discriminate.
  - pose proof (Hrows row0 (or_introl eq_refl)) as Hlen.
    cbn [List.concat] in Hnth.
    destruct r as [| r].
    + simpl in Hnth. rewrite nth_error_app1 in Hnth by lia.
      exists row0. split; [reflexivity | exact Hnth].
    + rewrite nth_error_app2 in Hnth by (rewrite Hlen; simpl; lia).
      replace (S r * c + j - List.length row0)%nat with (r * c + j)%nat in Hnth
        by (rewrite Hlen; simpl; lia).
      destruct (IH (fun row Hrow => Hrows row (or_intror Hrow)) r j v Hj Hnth)
        as (row & Hrow & Hv).
      exists row. split; [exact Hrow | exact Hv].
Qed.

Lemma rectangular_rows (c : Z) a :
  rectangular c a = true ->
  forall row, In row a -> List.length row = Z.to_nat c.
Proof.
  intros Hrect row Hrow. unfold rectangular in Hrect.
  rewrite forallb_forall in Hrect. specialize (Hrect row Hrow).
  apply Z.eqb_eq in Hrect. lia.
Qed.

(** The macroblock a first maximum of a field array sits on, in a
    rectangular grid. *)
Lemma first_max_cell (f : macroblock -> Z) (c index row col v : Z) a :
  rectangular c a = true ->
  0 < c ->
  first_max (map f (NumPy.ravel a)) index v ->
  row = index / c -> row * c + col = index -> 0 <= col < c ->
  exists cells m,
    nth_error a (Z.to_nat row) = Some cells /\
    nth_error cells (Z.to_nat col) = Some m /\
    forall m', In m' (NumPy.ravel a) -> f m' <= f m.
Proof.
  intros Hrect Hc (Hindex & Hnth & Hall & _) Hrow Hsplit Hcol.
  rewrite nth_error_map in Hnth.
  destruct (nth_error (NumPy.ravel a) (Z.to_nat index)) as [m |] eqn:Hm;
    [| discriminate].
  simpl in Hnth. injection Hnth as Hv.
  assert (Hrow0 : 0 <= row) by (subst row; apply Z.div_pos; lia).
  assert (Hnat : Z.to_nat index
                 = (Z.to_nat row * Z.to_nat c + Z.to_nat col)%nat).
  { rewrite <- Hsplit. rewrite Z2Nat.inj_add by nia.
    rewrite Z2Nat.inj_mul by lia. reflexivity. }
  rewrite Hnat in Hm.
  destruct (nth_error_ravel_rectangular (Z.to_nat c) a
              (rectangular_rows c a Hrect)
              (Z.to_nat row) (Z.to_nat col) m ltac:(lia) Hm)
    as (cells & Hcells & Hcell).
  exists cells, m. split; [exact Hcells |]. split; [exact Hcell |].
  intros m' Hin. apply In_nth_error in Hin. destruct Hin as [j Hj].
  rewrite Hv. apply (Hall j).
  rewrite nth_error_map, Hj. reflexivity.
Qed.

(** X8: when every row of the array has [columnsPerRow] elements, the
    row and column a detection reports for x (resp. y) are the position
    in the two-dimensional array of a macroblock whose [int8] absolute
    x (resp. y) component is the largest of the array. *)
Theorem detection_addresses_cell now a s :
  rectangular (columnsPerRow cfg) a = true ->
  well_shaped a = true ->
  0 < columnsPerRow cfg ->
  motionDetectionThreshold cfg < motionEstimate_of long_bits a ->
  exists s' d,
    analyse long_bits cfg now a s = Returned s' (Some d) /\
    (exists cells m,
       nth_error a (Z.to_nat (rowForMaxXabs d)) = Some cells /\
       nth_error cells (Z.to_nat (columnForMaxXabs d)) = Some m /\
       forall m', In m' (NumPy.ravel a) ->
         NumPy.absolute_int8 (x m') <= NumPy.absolute_int8 (x m)) /\
    (exists cells m,
       nth_error a (Z.to_nat (rowForMaxYabs d)) = Some cells /\
       nth_error cells (Z.to_nat (columnForMaxYabs d)) = Some m /\
       forall m', In m' (NumPy.ravel a) ->
         NumPy.absolute_int8 (y m') <= NumPy.absolute_int8 (y m)).
Proof.
  intros Hrect Hshape Hc Hgt.
  destruct (analyse_detection_returns now a s Hc Hshape Hgt) as (s' & d & Hcall).
  exists s', d. split; [exact Hcall |].
  destruct (detection_coordinates long_bits Timestamp cfg now a s s' d
              Hc Hcall)
    as ([vX HX] & [vY HY] & X1 & X2 & X3 & Y1 & Y2 & Y3).
  unfold Xabs_of in HX. unfold Yabs_of in HY.
  rewrite !NumPyFacts.ravel_map2d, map_map in HX, HY.
  split.
  - exact (first_max_cell (fun m => NumPy.absolute_int8 (x m))
             (columnsPerRow cfg) _ _ _ vX a Hrect Hc HX X1 X2 X3).
  - exact (first_max_cell (fun m => NumPy.absolute_int8 (y m))
             (columnsPerRow cfg) _ _ _ vY a Hrect Hc HY Y1 Y2 Y3).
Qed.

End Coordinates.

Lemma detection_locates_largest_components_witness :
  valid_grid moving_grid = true /\
  no_int8_min moving_grid = true /\
  well_shaped moving_grid = true /\
  0 < columnsPerRow example_config /\
  motionDetectionThreshold example_config < motionEstimate_of 32 moving_grid /\
  exists s' d,
    analyse 32 example_config 1001 moving_grid (mk_State [100] [0] [] [] 2)
    = Returned s' (Some d) /\
    (exists v, first_max [5; 50; 0; 0] (indexMaxXabs d) v) /\
    (exists v, first_max [0; 0; 0; 0] (indexMaxYabs d) v) /\
    rowForMaxXabs d = indexMaxXabs d / 2 /\
    rowForMaxXabs d * 2 + columnForMaxXabs d = indexMaxXabs d /\
    0 <= columnForMaxXabs d < 2 /\
    rowForMaxYabs d = indexMaxYabs d / 2 /\
    rowForMaxYabs d * 2 + columnForMaxYabs d = indexMaxYabs d /\
    0 <= columnForMaxYabs d < 2.
Proof.
  split; [reflexivity |]. split; [reflexivity |]. split; [reflexivity |].
  split; [reflexivity |]. split; [reflexivity |].
  exact (detection_locates_largest_components 32 Z example_config 1001
           moving_grid (mk_State [100] [0] [] [] 2)
           eq_refl eq_refl eq_refl eq_refl eq_refl).
Defined.

Lemma detection_addresses_cell_witness :
  rectangular (columnsPerRow example_config) moving_grid = true /\
  well_shaped moving_grid = true /\
  0 < columnsPerRow example_config /\
  motionDetectionThreshold example_config < motionEstimate_of 32 moving_grid /\
  exists s' d,
    analyse 32 example_config 1001 moving_grid (mk_State [100] [0] [] [] 2)
    = Returned s' (Some d) /\
    (exists cells m,
       nth_error moving_grid (Z.to_nat (rowForMaxXabs d)) = Some cells /\
       nth_error cells (Z.to_nat (columnForMaxXabs d)) = Some m /\
       forall m', In m' (NumPy.ravel moving_grid) ->
         NumPy.absolute_int8 (x m') <= NumPy.absolute_int8 (x m)) /\
    (exists cells m,
       nth_error moving_grid (Z.to_nat (rowForMaxYabs d)) = Some cells /\
       nth_error cells (Z.to_nat (columnForMaxYabs d)) = Some m /\
       forall m', In m' (NumPy.ravel moving_grid) ->
         NumPy.absolute_int8 (y m') <= NumPy.absolute_int8 (y m)).
Proof.
  split; [reflexivity |]. split; [reflexivity |]. split; [reflexivity |].
  split; [reflexivity |].
  exact (detection_addresses_cell 32 Z example_config 1001 moving_grid
           (mk_State [100] [0] [] [] 2) eq_refl eq_refl eq_refl eq_refl).
Defined.

(** ** What a recording keeps, however it ends *)

Section Invariants.

Variable long_bits : Z.
Variable Timestamp : Type.
Variable cfg : config.

Implicit Types (now : Timestamp) (a : grid) (s : State Timestamp).
Implicit Types (fs : list (frame Timestamp)).

(** The counter moves by one when the call returns and stays when it
    raises. *)
Lemma analyse_counter now a s :
  currentFrame (state_of (analyse long_bits cfg now a s))
  = match analyse long_bits cfg now a s with
    | Returned _ _ => currentFrame s + 1
    | Raised _ => currentFrame s
    end.
Proof.
  unfold analyse. cbv zeta.
  destruct (motionDetectionThreshold cfg <? _); [| reflexivity].
  destruct (NumPy.argmax _) as [iX |]; [| reflexivity].
  destruct (NumPy.argmax _) as [iY |]; [| reflexivity].
  destruct (row_column iX _) as [[rX cX] |]; [| reflexivity].
  destruct (row_column iY _) as [[rY cY] |]; reflexivity.
Qed.

(** X9: a recording only ever appends.  However it ends, each series is
    the series it started from followed by new entries; [sSADs] and
    [motionEstimates] have received the same number of entries, at most
    one per frame; the two detection series have received the same
    number of entries, no more than [sSADs]; and the frame counter has
    not gone back. *)
Theorem recording_only_appends fs s :
  let s' := recorded (record_frames long_bits cfg fs s) in
  exists l1 l2 (l3 : list Timestamp) l4,
    sSADs s' = sSADs s ++ l1 /\
    motionEstimates s' = motionEstimates s ++ l2 /\
    motionDetectionTimes s' = motionDetectionTimes s ++ l3 /\
    motionDetectionFrameNumbers s' = motionDetectionFrameNumbers s ++ l4 /\
    List.length l1 = List.length l2 /\
    List.length l3 = List.length l4 /\
    (List.length l3 <= List.length l1 <= List.length fs)%nat /\
    currentFrame s <= currentFrame s'.
Proof.
  cbv zeta. revert s. induction fs as [| [now a] fs IH]; intros s.
  - exists [], [], [], []. simpl. rewrite !app_nil_r.
    repeat split; try reflexivity; lia.
  - pose proof (analyse_series long_bits Timestamp cfg now a s) as Hseries.
    pose proof (analyse_counter now a s) as Hcounter.
    cbv zeta in Hseries. destruct Hseries as (H1 & H2 & H3 & H4).
    simpl record_frames.
    destruct (analyse long_bits cfg now a s) as [s1 d | s1];
      simpl state_of in H1, H2, H3, H4, Hcounter.
    + destruct (IH s1) as (l1 & l2 & l3 & l4 & R1 & R2 & R3 & R4
                           & E12 & E34 & [L31 L1] & Hframe).
      rewrite H1, H2, H3, H4 in *. rewrite <- app_assoc in R1, R2, R3, R4.
      eexists. eexists. eexists. eexists.
      split; [exact R1 |]. split; [exact R2 |].
      split; [exact R3 |]. split; [exact R4 |].
      destruct (motionDetectionThreshold cfg <? motionEstimate_of long_bits a);
        rewrite ?length_app; simpl List.length; repeat split; lia.
    + simpl recorded. rewrite H1, H2, H3, H4.
      eexists. eexists. eexists. eexists.
      split; [reflexivity |]. split; [reflexivity |].
      split; [reflexivity |]. split; [reflexivity |].
      destruct (motionDetectionThreshold cfg <? motionEstimate_of long_bits a);
        simpl List.length; repeat split; lia.
Qed.

Lemma detections_times_sorted (R : Timestamp -> Timestamp -> Prop) k fs :
  StronglySorted R (map fst fs) ->
  StronglySorted R
    (map (fun kf => fst (snd kf)) (detections long_bits cfg k fs)).
Proof.
  unfold detections. revert k.
  induction fs as [| f fs IH]; intros k Hsorted.
  - constructor.
  - simpl map in Hsorted. apply StronglySorted_inv in Hsorted.
    destruct Hsorted as [Hrest Hhead].
    cbn [number_from filter snd].
    destruct (detects long_bits cfg f); [| now apply IH].
    cbn [map fst snd]. constructor; [now apply IH |].
    clear IH Hrest. revert k Hhead.
    induction fs as [| g fs IHfs]; intros k Hhead; [constructor |].
    simpl map in Hhead. apply Forall_cons_iff in Hhead.
    destruct Hhead as [Hg Hfs].
    cbn [number_from filter snd].
    destruct (detects long_bits cfg g).
    + cbn [map fst snd]. constructor; [exact Hg |].
      replace (k + 1 + 1) with ((k + 1) + 1) by reflexivity.
      apply (IHfs (k + 1) Hfs).
    + apply (IHfs (k + 1) Hfs).
Qed.

(** X10: when the clock readings of the frames are ordered (for any
    order [R] on timestamps), so are the detection times a recording
    leaves in [motionDetectionTimes]. *)
Theorem detection_times_chronological (R : Timestamp -> Timestamp -> Prop)
  previous fs :
  0 <= motionDetectionThreshold cfg ->
  columnsPerRow cfg <> 0 ->
  StronglySorted R (map fst fs) ->
  exists s,
    record_frames long_bits cfg fs (start_time_slice previous) = Completed s /\
    StronglySorted R (motionDetectionTimes s).
Proof.
  intros Hthr Hc Hsorted.
  destruct (record_frames_series_of_returns long_bits Timestamp cfg fs
              (start_time_slice previous)
              (fun now a s0 _ =>
                 analyse_returns_nonneg long_bits Timestamp cfg now a s0 Hthr Hc))
    as (s & Hrun & _ & _ & H3 & _).
  exists s. split; [exact Hrun |]. rewrite H3.
  cbn [start_time_slice motionDetectionTimes currentFrame app].
  now apply detections_times_sorted.
Qed.

Lemma in_detections k fs (n : Z) :
  In n (map fst (detections long_bits cfg k fs))
  <-> (k <= n /\
       exists f, nth_error fs (Z.to_nat (n - k)) = Some f /\
                 detects long_bits cfg f = true).
Proof.
  unfold detections. revert k.
  induction fs as [| f0 fs IH]; intros k.
  - simpl. split; [contradiction |].
    intros (_ & f & Hf & _). destruct (Z.to_nat (n - k)); discriminate.
  - cbn [number_from filter snd].
    assert (Htail :
      In n (map fst (filter (fun kf => detects long_bits cfg (snd kf))
                       (number_from (k + 1) fs)))
      <-> (k < n /\
           exists f, nth_error (f0 :: fs) (Z.to_nat (n - k)) = Some f /\
                     detects long_bits cfg f = true)).
    { rewrite (IH (k + 1)). split.
      - intros (Hk & f & Hf & Hd). split; [lia |]. exists f.
        replace (Z.to_nat (n - k)) with (S (Z.to_nat (n - (k + 1)))) by lia.
        split; [exact Hf | exact Hd].
      - intros (Hk & f & Hf & Hd). split; [lia |]. exists f.
        replace (Z.to_nat (n - k)) with (S (Z.to_nat (n - (k + 1)))) in Hf
          by lia.
        split; [exact Hf | exact Hd]. }
    destruct (detects long_bits cfg f0) eqn:Hd0.
    + cbn [map fst In]. rewrite Htail. split.
      * intros [<- | (Hk & Hrest)].
        -- split; [lia |]. exists f0. rewrite Z.sub_diag. now split.
        -- split; [lia | exact Hrest].
      * intros (Hk & f & Hf & Hd).
        destruct (Z.eq_dec k n) as [<- | Hne]; [now left |].
        right. split; [lia |]. now exists f.
    + rewrite Htail. split.
      * intros (Hk & Hrest). split; [lia | exact Hrest].
      * intros (Hk & f & Hf & Hd).
        destruct (Z.eq_dec k n) as [<- | Hne].
        -- rewrite Z.sub_diag in Hf. simpl in Hf. injection Hf as <-.
           congruence.
        -- split; [lia |]. now exists f.
Qed.

(** X11: the detection log and the motionEstimate log agree.  After a
    recording, a number [n] is among the detection frame numbers exactly
    when entry [n] (counted from 1) of [motionEstimates] exists and is
    above the threshold. *)
Theorem detection_numbers_index_estimates previous fs :
  0 <= motionDetectionThreshold cfg ->
  columnsPerRow cfg <> 0 ->
  exists s,
    record_frames long_bits cfg fs (start_time_slice previous) = Completed s /\
    forall n,
      In n (motionDetectionFrameNumbers s)
      <-> (1 <= n /\
           exists estimate,
             nth_error (motionEstimates s) (Z.to_nat (n - 1)) = Some estimate /\
             motionDetectionThreshold cfg < estimate).
Proof.
  intros Hthr Hc.
  destruct (record_frames_series_of_returns long_bits Timestamp cfg fs
              (start_time_slice previous)
              (fun now a s0 _ =>
                 analyse_returns_nonneg long_bits Timestamp cfg now a s0 Hthr Hc))
    as (s & Hrun & _ & H2 & _ & H4 & _).
  exists s. split; [exact Hrun |]. intros n. rewrite H2, H4.
  cbn [start_time_slice motionEstimates motionDetectionFrameNumbers
    currentFrame app].
  rewrite in_detections. rewrite nth_error_map.
  cbv beta delta [frame].
  split.
  - intros (Hn & f & Hf & Hd). split; [exact Hn |].
    exists (motionEstimate_of long_bits (snd f)). rewrite Hf.
    split; [reflexivity |]. unfold detects in Hd. now apply Z.ltb_lt.
  - intros (Hn & estimate & Hf & Hd). split; [exact Hn |].
    cbv beta delta [frame] in Hf.
    destruct (@nth_error (Timestamp * grid) fs (Z.to_nat (n - 1))) as [f |];
      cbn [option_map] in Hf; [| discriminate Hf].
    exists f. split; [reflexivity |].
    injection Hf as <-.
    unfold detects. now apply Z.ltb_lt.
Qed.

End Invariants.

Lemma detection_times_chronological_witness :
  0 <= motionDetectionThreshold example_config /\
  columnsPerRow example_config <> 0 /\
  StronglySorted Z.lt (map fst frames_with_empty) /\
  exists s,
    record_frames 32 example_config frames_with_empty (start_time_slice None)
    = Completed s /\
    StronglySorted Z.lt (motionDetectionTimes s).
Proof.
  assert (Hsorted : StronglySorted Z.lt (map fst frames_with_empty))
    by (repeat constructor).
  split; [discriminate |]. split; [exact example_columns_nonzero |].
  split; [exact Hsorted |].
  exact (detection_times_chronological 32 Z example_config Z.lt None
           frames_with_empty ltac:(discriminate) example_columns_nonzero
           Hsorted).
Defined.

Lemma detection_numbers_index_estimates_witness :
  0 <= motionDetectionThreshold example_config /\
  columnsPerRow example_config <> 0 /\
  exists s,
    record_frames 32 example_config frames_with_empty (start_time_slice None)
    = Completed s /\
    forall n,
      In n (motionDetectionFrameNumbers s)
      <-> (1 <= n /\
           exists estimate,
             nth_error (motionEstimates s) (Z.to_nat (n - 1)) = Some estimate /\
             40 < estimate).
Proof.
  split; [discriminate |]. split; [exact example_columns_nonzero |].
  exact (detection_numbers_index_estimates 32 Z example_config None
           frames_with_empty ltac:(discriminate) example_columns_nonzero).
Defined.

(** ** When the flush fails, and what the logs keep *)

Section FlushOutcome.

Variable Timestamp : Type.
Variable str_time : Timestamp -> string.

Implicit Types (s : State Timestamp).

Lemma fold_write_none (key value : nat -> option string) (l : list nat) :
  fold_left (write_line key value) l None = None.
Proof. induction l as [| i l IH]; [reflexivity | exact IH]. Qed.

(** One missing key or value makes the whole loop fail. *)
Lemma write_fails (key value : nat -> option string) (n start i : nat)
  (file : option string) :
  (start <= i < start + n)%nat ->
  key i = None \/ value i = None ->
  fold_left (write_line key value) (seq start n) file = None.
Proof.
  revert start file. induction n as [| n IH]; intros start file Hi Hnone.
  - lia.
  - cbn [seq fold_left].
    destruct (Nat.eq_dec i start) as [-> | Hne].
    + assert (Hline : write_line key value file start = None).
      { unfold write_line. destruct file as [text |]; [| reflexivity].
        destruct Hnone as [-> | Hv]; [reflexivity |].
        rewrite Hv. now destruct (key start). }
      rewrite Hline. apply fold_write_none.
    + apply IH; [lia | exact Hnone].
Qed.

(** A loop that finds every key and value writes a file. *)
Lemma write_total (key value : nat -> option string) (n start : nat)
  (text : string) :
  (forall i, (start <= i < start + n)%nat ->
     key i <> None /\ value i <> None) ->
  exists text',
    fold_left (write_line key value) (seq start n) (Some text) = Some text'.
Proof.
  revert start text. induction n as [| n IH]; intros start text Hall.
  - exists text. reflexivity.
  - cbn [seq fold_left].
    destruct (Hall start ltac:(lia)) as [Hk Hv].
    unfold write_line at 2.
    destruct (key start) as [k |]; [| contradiction].
    destruct (value start) as [v |]; [| contradiction].
    apply IH. intros i Hi. apply Hall. lia.
Qed.

(** X12: the flush fails exactly when [motionDetectionFrameNumbers] is
    shorter than [motionDetectionTimes]: its third loop runs over the
    length of the times and indexes the frame numbers; the two other
    loops cannot fail. *)
Theorem flush_raises_iff s :
  flush str_time s = None
  <-> (List.length (motionDetectionFrameNumbers s)
       < List.length (motionDetectionTimes s))%nat.
Proof.
  unfold flush. rewrite !write_lines_series.
  destruct (Nat.lt_ge_cases (List.length (motionDetectionFrameNumbers s))
              (List.length (motionDetectionTimes s))) as [Hlt | Hge].
  - unfold write_lines.
    rewrite (write_fails _ _ (List.length (motionDetectionTimes s)) 0
               (List.length (motionDetectionFrameNumbers s)));
      [tauto | lia |].
    left. assert (Hnone : nth_error (motionDetectionFrameNumbers s)
                            (List.length (motionDetectionFrameNumbers s)) = None)
      by (apply nth_error_None; lia).
    now rewrite Hnone.
  - unfold write_lines.
    destruct (write_total
                (fun i => option_map str_int
                            (nth_error (motionDetectionFrameNumbers s) i))
                (fun i => option_map str_time
                            (nth_error (motionDetectionTimes s) i))
                (List.length (motionDetectionTimes s)) 0 EmptyString)
      as [text Htext].
    + intros i Hi. split.
      * destruct (nth_error (motionDetectionFrameNumbers s) i) eqn:E;
          [discriminate |].
        apply nth_error_None in E. lia.
      * destruct (nth_error (motionDetectionTimes s) i) eqn:E;
          [discriminate |].
        apply nth_error_None in E. lia.
    + rewrite Htext. split; [discriminate | lia].
Qed.

Lemma append_cancel_l (p a b : string) :
  (p ++ a = p ++ b)%string -> a = b.
Proof.
  induction p as [| c p IH]; simpl; intros H; [exact H |].
  injection H as H. now apply IH.
Qed.

Lemma digits_without_newline (d : Decimal.uint) :
  has_char newline_char (NilEmpty.string_of_uint d) = false.
Proof. induction d; simpl; [reflexivity | exact IHd ..]. Qed.

Lemma str_int_without_newline (z : Z) :
  has_char newline_char (str_int z) = false.
Proof.
  unfold str_int.
  assert (Huint : forall d,
            has_char newline_char (NilZero.string_of_uint d) = false).
  { intros d. destruct d; try reflexivity;
      exact (digits_without_newline _). }
  destruct (Z.to_int z) as [d | d]; simpl; [apply Huint |].
  apply Huint.
Qed.

Lemma str_int_inj (z z' : Z) : str_int z = str_int z' -> z = z'.
Proof.
  unfold str_int. intros H.
  assert (Hok : forall n, Z.to_int n <> Decimal.Pos Decimal.Nil /\
                          Z.to_int n <> Decimal.Neg Decimal.Nil).
  { intros [| p | p]; simpl; split; try discriminate;
      intros E; injection E as E;
      exact (DecimalPos.Unsigned.to_uint_nonnil p E). }
  apply (f_equal NilZero.int_of_string) in H.
  rewrite !NilZero.isi in H by apply Hok.
  injection H as H. now apply DecimalZ.to_int_inj.
Qed.

(** Two texts cut at their first newline agree piece by piece. *)
Lemma split_at_newline (p p' r r' : string) :
  has_char newline_char p = false ->
  has_char newline_char p' = false ->
  (p ++ String newline_char r = p' ++ String newline_char r')%string ->
  p = p' /\ r = r'.
Proof.
  revert p'. induction p as [| c p IH]; intros [| c' p'] Hp Hp' H; simpl in *.
  - injection H as ->. split; reflexivity.
  - injection H as Hc _. subst c'.
    rewrite Ascii.eqb_refl in Hp'. discriminate.
  - injection H as Hc _. subst c.
    rewrite Ascii.eqb_refl in Hp. discriminate.
  - injection H as -> H.
    apply orb_false_iff in Hp. apply orb_false_iff in Hp'.
    destruct (IH p' (proj2 Hp) (proj2 Hp') H) as [-> ->].
    split; reflexivity.
Qed.

Lemma log_text_int_inj (l l' : list Z) (k : Z) :
  log_text (map (fun kv => (fst kv, str_int (snd kv))) (number_from k l))
  = log_text (map (fun kv => (fst kv, str_int (snd kv))) (number_from k l')) ->
  l = l'.
Proof.
  revert l' k. induction l as [| v l IH]; intros [| v' l'] k H.
  - reflexivity.
  - exfalso. cbn [number_from map log_text fold_right fst snd] in H.
    destruct (str_int k); discriminate.
  - exfalso. cbn [number_from map log_text fold_right fst snd] in H.
    destruct (str_int k); discriminate.
  - cbn [number_from map log_text fold_right fst snd] in H.
    apply append_cancel_l in H.
    cbn [append] in H. injection H as H.
    change (newline ++ ?t)%string with (String newline_char t) in H.
    destruct (split_at_newline _ _ _ _ (str_int_without_newline v)
                (str_int_without_newline v') H) as [Hv Hrest].
    apply str_int_inj in Hv. subst v'.
    f_equal. apply (IH l' (k + 1)). exact Hrest.
Qed.

(** X13: the SADs log and the motionEstimate log lose nothing: two
    states whose flushed files are equal hold the same [sSADs], resp.
    the same [motionEstimates]. *)
Theorem logs_determine_series s s' (files files' : logs) :
  flush str_time s = Some files ->
  flush str_time s' = Some files' ->
  (sSADsfile files = sSADsfile files' -> sSADs s = sSADs s') /\
  (motionEstimateFile files = motionEstimateFile files' ->
   motionEstimates s = motionEstimates s').
Proof.
  unfold flush. rewrite !write_lines_series.
  destruct (write_lines (List.length (motionDetectionTimes s)) _ _);
    [| discriminate].
  destruct (write_lines (List.length (motionDetectionTimes s')) _ _);
    [| discriminate].
  intros H H'. injection H as <-. injection H' as <-.
  cbn [sSADsfile motionEstimateFile]. unfold numbered.
  split; apply log_text_int_inj.
Qed.

End FlushOutcome.

Lemma logs_determine_series_witness :
  flush str_int (mk_State [100; 0] [0; 55] [1001] [2] 3)
  = Some {| sSADsfile := ("1: 100" ++ newline ++ "2: 0" ++ newline)%string;
            motionEstimateFile := ("1: 0" ++ newline ++ "2: 55" ++ newline)%string;
            motionDetectionTimesFile := ("2: 1001" ++ newline)%string |} /\
  flush str_int (mk_State [100; 0] [0; 55] [] [] 3)
  = Some {| sSADsfile := ("1: 100" ++ newline ++ "2: 0" ++ newline)%string;
            motionEstimateFile := ("1: 0" ++ newline ++ "2: 55" ++ newline)%string;
            motionDetectionTimesFile := EmptyString |} /\
  (("1: 100" ++ newline ++ "2: 0" ++ newline)%string
   = ("1: 100" ++ newline ++ "2: 0" ++ newline)%string ->
   [100; 0] = [100; 0]) /\
  (("1: 0" ++ newline ++ "2: 55" ++ newline)%string
   = ("1: 0" ++ newline ++ "2: 55" ++ newline)%string ->
   [0; 55] = [0; 55]).
Proof.
  split; [reflexivity |]. split; [reflexivity |].
  exact (logs_determine_series Z str_int
           (mk_State [100; 0] [0; 55] [1001] [2] 3)
           (mk_State [100; 0] [0; 55] [] [] 3) _ _ eq_refl eq_refl).
Defined.
